(** * project_tracker: the task views of [project_tracking/views.py]

    A shallow embedding of [TasksViewSet] over an explicit store.  Every view
    is a function from the store, the authenticated user, the clock and the
    request to the new store and the outcome of the call: a [Response], or an
    exception that no [except] clause of the view catches. *)

From stdpp Require Import gmap strings list fin_maps sorting pretty.
From Stdlib Require Import ZArith Ascii String.

Local Open Scope Z_scope.

(** ** The Python values the views inspect *)

Module Py.

(** What [request.data.get(key)] yields: [None] for an absent key, otherwise a
    scalar of the request body.  The views only test truthiness and call
    [int] on these values, and both are defined on the three shapes below. *)
Inductive pyval :=
| VNone
| VStr (s : string)
| VInt (z : Z).

Inductive Exception :=
| ValueError
| TypeError.

(** [bool(v)], as [if v] and [if not v] use it. *)
Definition truthy (v : pyval) : bool :=
  match v with
  | VNone => false
  | VStr s => negb (String.eqb s "")
  | VInt z => negb (z =? 0)
  end.

(** [str(v)], as a character field stores a value. *)
Definition str (v : pyval) : string :=
  match v with
  | VNone => "None"
  | VStr s => s
  | VInt z => pretty z
  end.

Definition digit (c : ascii) : option Z :=
  let n := Z.of_nat (nat_of_ascii c) in
  if (48 <=? n) && (n <=? 57) then Some (n - 48) else None.

Definition isspace (c : ascii) : bool :=
  let n := Z.of_nat (nat_of_ascii c) in
  (n =? 32) || ((9 <=? n) && (n <=? 13)).

Fixpoint lstrip (s : list ascii) : list ascii :=
  match s with
  | c :: s' => if isspace c then lstrip s' else s
  | [] => []
  end.

Definition strip (s : list ascii) : list ascii :=
  rev (lstrip (rev (lstrip s))).

(** The digits of a decimal literal, most significant first; a single
    underscore may separate two digits.  [acc] is the value read so far and
    [after_digit] tells whether the previous character was a digit. *)
Fixpoint digits (acc : Z) (after_digit : bool) (s : list ascii) : option Z :=
  match s with
  | [] => if after_digit then Some acc else None
  | c :: s' =>
      match digit c with
      | Some d => digits (10 * acc + d) true s'
      | None =>
          if Ascii.eqb c "_" && after_digit
          then match s' with
               | c' :: _ => match digit c' with
                            | Some _ => digits acc false s'
                            | None => None
                            end
               | [] => None
               end
          else None
      end
  end.

(** [int(s)] on a string in base ten: surrounding white space is dropped, one
    sign is allowed, and what remains must be a decimal literal.  [None] is
    the [ValueError] of [int].  This is [int] of Python 3.6 and later on
    strings of ASCII characters that are short enough for the interpreter:
    [int] also reads the decimal digits and the white space of the Unicode
    tables of the interpreter, and from 3.11 on refuses a literal of more
    digits than [sys.get_int_max_str_digits()] (4300 unless set); neither is
    modelled, so beyond that range this function is no model of [int]. *)
Definition int_of_string (s : string) : option Z :=
  match strip (list_ascii_of_string s) with
  | "-"%char :: s' => Z.opp <$> digits 0 false s'
  | "+"%char :: s' => digits 0 false s'
  | s' => digits 0 false s'
  end.

(** [int(v)]. *)
Definition int (v : pyval) : Exception + Z :=
  match v with
  | VNone => inl TypeError
  | VStr s => match int_of_string s with Some z => inr z | None => inl ValueError end
  | VInt z => inr z
  end.

(** One numeric field of [strptime]: two digits if they form a value the
    directive admits and the rest of the format still matches, otherwise one
    digit.  [k] is the match of the rest of the format. *)
Definition field {A} (two_ok : Z -> bool) (s : list ascii)
    (k : Z -> list ascii -> option A) : option A :=
  match s with
  | c1 :: s1 =>
      match digit c1 with
      | Some d1 =>
          let one := k d1 s1 in
          match s1 with
          | c2 :: s2 =>
              match digit c2 with
              | Some d2 =>
                  if two_ok (10 * d1 + d2)
                  then match k (10 * d1 + d2) s2 with
                       | Some r => Some r
                       | None => one
                       end
                  else one
              | None => one
              end
          | [] => one
          end
      | None => None
      end
  | [] => None
  end.

Definition colon {A} (s : list ascii) (k : list ascii -> option A) : option A :=
  match s with
  | ":"%char :: s' => k s'
  | _ => None
  end.

(** [datetime.strptime(s, '%H:%M:%S')], reduced to the hour, minute and
    second the view reads off the result; [None] is its [ValueError]. *)
Definition strptime_HMS (s : string) : option (Z * Z * Z) :=
  field (fun h => h <=? 23) (list_ascii_of_string s) (fun h s1 =>
  colon s1 (fun s2 =>
  field (fun m => m <=? 59) s2 (fun m s3 =>
  colon s3 (fun s4 =>
  field (fun sec => sec <=? 61) s4 (fun sec s5 =>
  match s5 with
  | [] => if sec <=? 59 then Some (h, m, sec) else None
  | _ :: _ => None
  end))))).

(** [timedelta(hours=h, minutes=m, seconds=s)] in microseconds, the
    resolution of [datetime]. *)
Definition timedelta (hours minutes seconds : Z) : Z :=
  (hours * 3600 + minutes * 60 + seconds) * 1000000.

End Py.

(** ** The store and the model layer *)

Module Models.

(** A row of the project table: its owner is a user id. *)
Record Project := mkProject {
  project_name : string;
  user : positive
}.

(** A row of the task table.  Timestamps are microseconds on the clock of
    [timezone.now()]; a null column is [None]; [project] and [cloned_from]
    are foreign keys, held as the id of the row they point to. *)
Record Task := mkTask {
  name : string;
  project : positive;
  started_at : Z;
  paused_at : option Z;
  seconds_paused : Z;
  ended_at : option Z;
  cloned_from : option positive
}.

(** The two tables, keyed by primary key. *)
Record DB := mkDB {
  projects : gmap positive Project;
  tasks : gmap positive Task
}.

(** The primary key the store gives a new row: one above every key in use. *)
Definition next_id {A} (m : gmap positive A) : positive :=
  map_fold (fun k _ acc => Pos.max (Pos.succ k) acc) 1%positive m.

(** The join [project__user]: the owner of the project a task points to. *)
Definition project__user (db : DB) (t : Task) : option positive :=
  user <$> projects db !! project t.

(** Modelled from the spec: the [is_closed] property of [Task], declared in
    the model layer; the data model has is_closed hold exactly when ended_at
    is not null. *)
Definition is_closed (t : Task) : bool :=
  match ended_at t with
  | Some _ => true
  | None => false
  end.

(** Modelled from the spec: [Task.toggle_paused], declared in the model
    layer.  With paused_at null it sets paused_at to now; otherwise it adds
    now - paused_at to seconds_paused and clears paused_at.  The accumulated
    pause is kept in the unit of the timestamps. *)
Definition toggle_paused (now : Z) (t : Task) : Task :=
  match paused_at t with
  | None =>
      mkTask (name t) (project t) (started_at t) (Some now)
             (seconds_paused t) (ended_at t) (cloned_from t)
  | Some p =>
      mkTask (name t) (project t) (started_at t) None
             (seconds_paused t + (now - p)) (ended_at t) (cloned_from t)
  end.

(** Modelled from the spec: [Task.close], declared in the model layer.  Only
    ended_at is set, to now; paused_at is left as it is. *)
Definition close (now : Z) (t : Task) : Task :=
  mkTask (name t) (project t) (started_at t) (paused_at t)
         (seconds_paused t) (Some now) (cloned_from t).

(** Modelled from the spec: [Task.restart], declared in the model layer.  It
    resets started_at to now, ended_at and paused_at to null and
    seconds_paused to 0. *)
Definition restart (now : Z) (t : Task) : Task :=
  mkTask (name t) (project t) now None 0 None (cloned_from t).

(** [instance.save()] of a task already in the table. *)
Definition save (pk : positive) (t : Task) (db : DB) : DB :=
  mkDB (projects db) (<[pk := t]> (tasks db)).

End Models.

(** ** The views of [TasksViewSet] *)

Module Views.
Import Py Models.

Inductive Status :=
| HTTP_200_OK
| HTTP_201_CREATED
| HTTP_400_BAD_REQUEST
| HTTP_403_FORBIDDEN
| HTTP_404_NOT_FOUND.

(** A model instance: the primary key and the row. *)
Definition TaskRow : Type := positive * Task.

(** The payload of a response: a one-entry dictionary with a message, a
    serialized task, or a serialized sequence of tasks (whole, or one page). *)
Inductive Body :=
| Message (key msg : string)
| TaskData (task : TaskRow)
| TaskList (rows : list TaskRow)
| TaskPage (rows : list TaskRow).

Record Response := mkResponse {
  data : Body;
  status : Status
}.

(** How a call of a view ends: it returns a response, or an exception
    leaves the view. *)
Inductive Outcome :=
| Returned (r : Response)
| Raised (e : Exception).

(** [request.data.get(key)]. *)
Definition get (data : gmap string pyval) (key : string) : pyval :=
  default VNone (data !! key).

(** [QuerySet.exists()]. *)
Definition exists_ {A} (qs : gmap positive A) : bool :=
  bool_decide (qs ≠ ∅).

(** [Task.objects.filter(project__user=user)]. *)
Definition tasks_of (db : DB) (user : positive) : gmap positive Task :=
  filter (fun kt => project__user db kt.2 = Some user) (tasks db).

(** [Task.objects.filter(project__user=user, ended_at__isnull=True,
    paused_at__isnull=True)]. *)
Definition running_tasks (db : DB) (user : positive) : gmap positive Task :=
  filter (fun kt => project__user db kt.2 = Some user
                    ∧ ended_at kt.2 = None ∧ paused_at kt.2 = None) (tasks db).

(** The row with primary key [id], if [id] is a key of the table. *)
Definition by_id {A} (m : gmap positive A) (id : Z) : option (positive * A) :=
  match id with
  | Z.pos pk => pair pk <$> m !! pk
  | _ => None
  end.

(** [Project.objects.get(id=id, user=user)]; [None] is [DoesNotExist]. *)
Definition get_project (db : DB) (id : Z) (u : positive)
    : option (positive * Project) :=
  match by_id (projects db) id with
  | Some (pk, p) => if decide (user p = u) then Some (pk, p) else None
  | None => None
  end.

(** [Task.objects.get(id=id, project__user=user)]; [None] is [DoesNotExist]. *)
Definition get_task (db : DB) (id : Z) (u : positive) : option TaskRow :=
  match by_id (tasks db) id with
  | Some (pk, t) =>
      if decide (project__user db t = Some u) then Some (pk, t) else None
  | None => None
  end.

(** [Task.objects.get(id=id, project__user=user, ended_at__isnull=False)]. *)
Definition get_closed_task (db : DB) (id : Z) (u : positive) : option TaskRow :=
  match get_task db id u with
  | Some (pk, t) =>
      match ended_at t with
      | Some _ => Some (pk, t)
      | None => None
      end
  | None => None
  end.

(** [Task.objects.create] on the columns given: the row is stored under a
    new key. *)
Definition objects_create (t : Task) (db : DB) : TaskRow * DB :=
  let pk := next_id (tasks db) in
  ((pk, t), mkDB (projects db) (<[pk := t]> (tasks db))).

Definition started_desc (a b : TaskRow) : Prop :=
  started_at b.2 ≤ started_at a.2.

#[global] Instance started_desc_dec (a b : TaskRow) : Decision (started_desc a b).
Proof. unfold started_desc. apply _. Defined.

(** [queryset.order_by('-started_at')]. *)
Definition order_by_started_at_desc (qs : gmap positive Task) : list TaskRow :=
  merge_sort started_desc (map_to_list qs).

Definition forbidden : Response :=
  mkResponse
    (Message "error"
       ("there are tasks running, " ++ "you must pause or close"
        ++ " them in order to create new tasks"))
    HTTP_403_FORBIDDEN.

Section TasksViewSet.

(** Modelled from the spec: the default of [Task.name], declared in the
    model layer: a generic label given to a task created without a name.  The
    other columns a view leaves out take their defaults of the data model:
    paused_at, ended_at and cloned_from null, seconds_paused 0. *)
Variable default_name : string.

(** The paginator of the framework configuration: [None] when pagination is
    off, otherwise the page of the query set the request asks for. *)
Variable paginate_queryset : list TaskRow -> option (list TaskRow).

(** [TasksViewSet.list]; the name [list] is the list type here. *)
Definition list_ (db : DB) (user : positive) : Response :=
  let query_set := order_by_started_at_desc (tasks_of db user) in
  match paginate_queryset query_set with
  | Some page => mkResponse (TaskPage page) HTTP_200_OK
  | None => mkResponse (TaskList query_set) HTTP_200_OK
  end.

(** [TasksViewSet.create]. *)
Definition create (now : Z) (db : DB) (user : positive)
    (data : gmap string pyval) : DB * Outcome :=
  if exists_ (running_tasks db user) then (db, Returned forbidden)
  else
    let project_id := get data "project_id" in
    let task_name := get data "name" in
    let duration := get data "duration" in
    if negb (truthy project_id) then
      (db, Returned (mkResponse
             (Message "error"
                ("You must provide a project" ++ " in order to start a new task"))
             HTTP_400_BAD_REQUEST))
    else
      let started_at := now in
      let name := if truthy task_name then str task_name else default_name in
      match int project_id with
      | inl ValueError =>
          (db, Returned (mkResponse (Message "error" "Invalid Project")
                           HTTP_400_BAD_REQUEST))
      | inl e => (db, Raised e)
      | inr id =>
          match get_project db id user with
          | None =>
              (db, Returned (mkResponse (Message "error" "Invalid Project")
                               HTTP_400_BAD_REQUEST))
          | Some (project, _) =>
              let params ended_at :=
                mkTask name project started_at None 0 ended_at None in
              let created t :=
                let '(new_task, db') := objects_create t db in
                (db', Returned (mkResponse (TaskData new_task) HTTP_201_CREATED)) in
              if truthy duration then
                match strptime_HMS "01:15:05" with
                | Some (hour, minute, second) =>
                    let ended_at := started_at + timedelta hour minute second in
                    created (params (Some ended_at))
                | None =>
                    (db, Returned (mkResponse
                           (Message "error" "Invalid duration, format must be H:M:S")
                           HTTP_400_BAD_REQUEST))
                end
              else created (params None)
          end
      end.

(** [TasksViewSet.pause_resume_task]; [pk] is [int(pk)] of the digits the
    route matched. *)
Definition pause_resume_task (now : Z) (db : DB) (user : positive) (pk : N)
    : DB * Outcome :=
  match get_task db (Z.of_N pk) user with
  | None =>
      (db, Returned (mkResponse (Message "error" "Task not found")
                       HTTP_404_NOT_FOUND))
  | Some (id, task) =>
      if negb (is_closed task) then
        let task := toggle_paused now task in
        (save id task db, Returned (mkResponse (TaskData (id, task)) HTTP_200_OK))
      else
        (db, Returned (mkResponse (Message "error" "the task is already closed")
                         HTTP_400_BAD_REQUEST))
  end.

(** [TasksViewSet.close_task]. *)
Definition close_task (now : Z) (db : DB) (user : positive) (pk : N)
    : DB * Outcome :=
  match get_task db (Z.of_N pk) user with
  | None =>
      (db, Returned (mkResponse (Message "detail" "Task not found")
                       HTTP_404_NOT_FOUND))
  | Some (id, task) =>
      if negb (is_closed task) then
        let task := close now task in
        (save id task db, Returned (mkResponse (TaskData (id, task)) HTTP_200_OK))
      else
        (db, Returned (mkResponse (Message "error" "Task already closed")
                         HTTP_400_BAD_REQUEST))
  end.

(** [TasksViewSet.restart_task]. *)
Definition restart_task (now : Z) (db : DB) (user : positive) (pk : N)
    : DB * Outcome :=
  match get_task db (Z.of_N pk) user with
  | None =>
      (db, Returned (mkResponse (Message "detail" "Task not found")
                       HTTP_404_NOT_FOUND))
  | Some (id, task) =>
      if negb (is_closed task) then
        let task := restart now task in
        (save id task db, Returned (mkResponse (TaskData (id, task)) HTTP_200_OK))
      else
        (db, Returned (mkResponse (Message "error" "Task already closed")
                         HTTP_400_BAD_REQUEST))
  end.

(** [TasksViewSet.continue_task]. *)
Definition continue_task (now : Z) (db : DB) (user : positive)
    (data : gmap string pyval) : DB * Outcome :=
  if exists_ (running_tasks db user) then (db, Returned forbidden)
  else
    let task_id := get data "id" in
    if negb (truthy task_id) then
      (db, Returned (mkResponse
             (Message "error"
                ("You must provide a task id" ++ " in order to continue task"))
             HTTP_400_BAD_REQUEST))
    else
      match int task_id with
      | inl e => (db, Raised e)
      | inr id =>
          match get_closed_task db id user with
          | None =>
              (db, Returned (mkResponse (Message "error" "Task not found")
                               HTTP_404_NOT_FOUND))
          | Some (pk, task) =>
              let kwargs :=
                mkTask (name task) (project task) now None 0 None (Some pk) in
              let '(new_task, db') := objects_create kwargs db in
              (db', Returned (mkResponse (TaskData new_task) HTTP_201_CREATED))
          end
      end.

(** The requests that reach a view defined in [views.py] for the tasks.
    [TasksViewSet] is a [ModelViewSet] that allows GET, POST and PUT, so the
    framework also serves retrieve and update on a single task from code and
    a serializer that are not in the repository; those two routes are not
    requests of this type. *)
Inductive Request :=
| GET_tasks
| POST_tasks (data : gmap string pyval)
| PUT_pause_resume (pk : N)
| PUT_close (pk : N)
| PUT_restart (pk : N)
| POST_continue (data : gmap string pyval).

(** One authenticated call of a view defined in [views.py], at clock time
    [now]. *)
Definition dispatch (now : Z) (user : positive) (req : Request) (db : DB)
    : DB * Outcome :=
  match req with
  | GET_tasks => (db, Returned (list_ db user))
  | POST_tasks data => create now db user data
  | PUT_pause_resume pk => pause_resume_task now db user pk
  | PUT_close pk => close_task now db user pk
  | PUT_restart pk => restart_task now db user pk
  | POST_continue data => continue_task now db user data
  end.

(** A sequence of such calls, each with its time and caller, run in order. *)
Fixpoint serve (calls : list (Z * positive * Request)) (db : DB) : DB :=
  match calls with
  | [] => db
  | (now, user, req) :: calls' => serve calls' (dispatch now user req db).1
  end.

End TasksViewSet.

End Views.

(** ** The views of [ProjectViewSet] *)

Module ProjectViews.
Import Py Models Views.

(** A project instance: the primary key and the row. *)
Definition ProjectRow : Type := positive * Project.

(** [Project.objects.filter(user=user)]. *)
Definition projects_of (db : DB) (u : positive) : gmap positive Project :=
  filter (fun kp => user kp.2 = u) (projects db).

Section ProjectViewSet.

(** The type of [validator.errors]. *)
Variable Errors : Type.

(** Modelled from the spec: [ProjectSerializer], declared in the serializer
    module.  On the body of a request, [is_valid()] either fails, and
    [errors] says why, or succeeds, and [data] holds the name of the project,
    the one column a request gives. *)
Variable ProjectSerializer : gmap string pyval -> Errors + string.

(** The paginator of the framework configuration, as for the tasks. *)
Variable paginate_queryset : list ProjectRow -> option (list ProjectRow).

Inductive ProjectBody :=
| Invalid (errors : Errors)
| ProjectData (project : ProjectRow)
| ProjectList (rows : list ProjectRow)
| ProjectPage (rows : list ProjectRow).

Record ProjectResponse := mkProjectResponse {
  project_data : ProjectBody;
  project_status : Status
}.

(** [ProjectViewSet.create]. *)
Definition create (db : DB) (u : positive) (data : gmap string pyval)
    : DB * ProjectResponse :=
  match ProjectSerializer data with
  | inl errors => (db, mkProjectResponse (Invalid errors) HTTP_400_BAD_REQUEST)
  | inr validated =>
      let pk := next_id (projects db) in
      let project := mkProject validated u in
      (mkDB (<[pk := project]> (projects db)) (tasks db),
       mkProjectResponse (ProjectData (pk, project)) HTTP_201_CREATED)
  end.

(** [ProjectViewSet.list]: the query set has no [order_by]; its rows come in
    the order of the store. *)
Definition list_ (db : DB) (u : positive) : ProjectResponse :=
  let query_set := map_to_list (projects_of db u) in
  match paginate_queryset query_set with
  | Some page => mkProjectResponse (ProjectPage page) HTTP_200_OK
  | None => mkProjectResponse (ProjectList query_set) HTTP_200_OK
  end.

End ProjectViewSet.

End ProjectViews.

(** ** Properties of the views *)

Import Py Models Views.

(** A user has a running task: a task of one of the user's projects with
    ended_at and paused_at both null. *)
Definition has_running (db : DB) (u : positive) : Prop :=
  ∃ pk t, tasks db !! pk = Some t ∧ project__user db t = Some u
          ∧ ended_at t = None ∧ paused_at t = None.

(** A user has an open task: one with ended_at null, paused or not. *)
Definition has_open (db : DB) (u : positive) : Prop :=
  ∃ pk t, tasks db !! pk = Some t ∧ project__user db t = Some u
          ∧ ended_at t = None.

(** At most one task of each user is running. *)
Definition single_running (db : DB) : Prop :=
  ∀ u pk1 pk2 t1 t2,
    running_tasks db u !! pk1 = Some t1 →
    running_tasks db u !! pk2 = Some t2 → pk1 = pk2.

(** The store and clock of the examples: user 1 owns project 1, user 2 owns
    project 2, and there is no task yet. *)
Definition db0 : DB :=
  mkDB {[ 1%positive := mkProject "Alpha" 1%positive;
          2%positive := mkProject "Beta" 2%positive ]} ∅.

Definition no_pagination : list TaskRow → option (list TaskRow) :=
  fun _ => None.

Definition alice : positive := 1%positive.

(** A task of project 1 that started at 100, with the given pause and end. *)
Definition task1 (paused ended : option Z) : Task :=
  mkTask "Task" 1%positive 100 paused 0 ended None.

Definition db_with (t : Task) : DB :=
  mkDB (projects db0) {[ 1%positive := t ]}.

(** The calls of user 1 that leave two tasks running: start a task, pause
    it, start a second one, resume the first. *)
Definition resume_calls : list (Z * positive * Request) :=
  [ (100, alice, POST_tasks {[ "project_id" := VInt 1 ]});
    (200, alice, PUT_pause_resume 1%N);
    (300, alice, POST_tasks {[ "project_id" := VInt 1 ]});
    (400, alice, PUT_pause_resume 1%N) ].

(** The same with the first task restarted in place of resumed. *)
Definition restart_calls : list (Z * positive * Request) :=
  [ (100, alice, POST_tasks {[ "project_id" := VInt 1 ]});
    (200, alice, PUT_pause_resume 1%N);
    (300, alice, POST_tasks {[ "project_id" := VInt 1 ]});
    (400, alice, PUT_restart 1%N) ].

(** What one call of a view defined in [views.py] for the tasks, by user
    [u] at time [now], may do to the store: nothing; add one task of a
    project of [u], under the next key, that starts now, when [u] has no
    running task; or rewrite one open task of [u] in place by a method of
    the model. *)
Inductive store_step (now : Z) (u : positive) (db : DB) : DB → Prop :=
| step_none : store_step now u db db
| step_new t :
    project__user db t = Some u →
    ¬ has_running db u →
    started_at t = now → paused_at t = None → seconds_paused t = 0 →
    (cloned_from t = None
     ∨ ∃ c src e, cloned_from t = Some c ∧ tasks db !! c = Some src
                  ∧ project__user db src = Some u
                  ∧ ended_at src = Some e ∧ project src = project t
                  ∧ name src = name t ∧ ended_at t = None) →
    store_step now u db
      (mkDB (projects db) (<[next_id (tasks db) := t]> (tasks db)))
| step_update pk t t' :
    tasks db !! pk = Some t →
    project__user db t = Some u →
    ended_at t = None →
    t' = toggle_paused now t ∨ t' = close now t ∨ t' = restart now t →
    store_step now u db (mkDB (projects db) (<[pk := t']> (tasks db))).

(** A call that makes a paused task of the caller run again. *)
Definition wakes (db : DB) (u : positive) (req : Request) : Prop :=
  match req with
  | PUT_pause_resume pk | PUT_restart pk =>
      ∃ p t w, pk = N.pos p ∧ tasks db !! p = Some t
               ∧ project__user db t = Some u
               ∧ ended_at t = None ∧ paused_at t = Some w
  | _ => False
  end.

(** Every task that continues another one points to a closed task of the
    same project that has a smaller key. *)
Definition clones_closed (db : DB) : Prop :=
  ∀ pk t c,
    tasks db !! pk = Some t → cloned_from t = Some c →
    (c < pk)%positive
    ∧ ∃ src, tasks db !! c = Some src ∧ is_closed src = true
             ∧ project src = project t.

(** Every task belongs to a project of the store. *)
Definition tasks_have_project (db : DB) : Prop :=
  ∀ pk t, tasks db !! pk = Some t → is_Some (projects db !! project t).

(** The strings made of ASCII characters.  On these [Py.int_of_string]
    follows [int] character by character; a digit or a white space from
    beyond ASCII is read by [int] through the Unicode tables of the
    interpreter, which are not modelled. *)
Definition ascii_only (s : string) : bool :=
  forallb (fun c => (nat_of_ascii c <? 128)%nat) (list_ascii_of_string s).

(** A value of a request that is an integer, or a string of ASCII
    characters. *)
Definition ascii_value (v : pyval) : Prop :=
  match v with
  | VStr s => ascii_only s = true
  | _ => True
  end.

(** A value of a request that is an integer, or a string of at most 640
    characters: no setting of the interpreter's limit on the digits of a
    literal ([sys.set_int_max_str_digits], 4300 unless set, never less than
    640) makes [int] refuse a literal that short. *)
Definition short_value (v : pyval) : Prop :=
  match v with
  | VStr s => (String.length s ≤ 640)%nat
  | _ => True
  end.

(** The integers of a 64-bit key column: the numbers every database backend
    takes in a lookup by primary key. *)
Definition db_integer (z : Z) : Prop := - 2 ^ 63 ≤ z < 2 ^ 63.

Definition bob : positive := 2%positive.

(** A serializer for the examples: a project needs a name that is a
    non-empty string. *)
Definition name_required (data : gmap string pyval) : string + string :=
  match get data "name" with
  | VStr s => if String.eqb s "" then inl "This field may not be blank."
              else inr s
  | _ => inl "This field is required."
  end.

(** ** The Python layer on examples *)

Example int_of_string_42 : Py.int_of_string " +4_2 " = Some 42.
Proof. reflexivity. Qed.

Example int_of_string_abc : Py.int_of_string "abc" = None.
Proof. reflexivity. Qed.

Example strptime_literal : Py.strptime_HMS "01:15:05" = Some (1, 15, 5).
Proof. reflexivity. Qed.

Example strptime_short : Py.strptime_HMS "2:0:7" = Some (2, 0, 7).
Proof. reflexivity. Qed.

Example strptime_bad : Py.strptime_HMS "25:00:00" = None.
Proof. reflexivity. Qed.

(** ** The query sets and the running-task check *)

Lemma exists_true {A} (qs : gmap positive A) :
  exists_ qs = true ↔ ∃ k v, qs !! k = Some v.
Proof.
  unfold exists_. rewrite bool_decide_eq_true. split.
  - apply map_choose.
  - intros (k & v & Hk) ->. by rewrite lookup_empty in Hk.
Qed.

Lemma running_tasks_lookup db u pk t :
  running_tasks db u !! pk = Some t ↔
  tasks db !! pk = Some t ∧ project__user db t = Some u
  ∧ ended_at t = None ∧ paused_at t = None.
Proof. unfold running_tasks. by rewrite map_lookup_filter_Some. Qed.

Lemma exists_running db u :
  exists_ (running_tasks db u) = true ↔ has_running db u.
Proof.
  rewrite exists_true. unfold has_running.
  split; intros (pk & t & H); exists pk, t; by apply running_tasks_lookup.
Qed.

Lemma not_exists_running db u :
  exists_ (running_tasks db u) = false ↔ ¬ has_running db u.
Proof.
  rewrite <- exists_running. destruct (exists_ _); naive_solver.
Qed.

Lemma next_id_above {A} (m : gmap positive A) k :
  is_Some (m !! k) → (k < next_id m)%positive.
Proof.
  unfold next_id. revert k.
  apply (map_fold_weak_ind
           (fun r (m : gmap positive A) => ∀ k, is_Some (m !! k) → (k < r)%positive)).
  - intros k [x Hx]. by rewrite lookup_empty in Hx.
  - intros i x m' r _ IH k Hk.
    destruct (decide (i = k)) as [->|Hne].
    + lia.
    + rewrite lookup_insert_ne in Hk by done. specialize (IH k Hk). lia.
Qed.

Lemma next_id_fresh {A} (m : gmap positive A) : m !! next_id m = None.
Proof.
  destruct (m !! next_id m) eqn:E; [|done].
  assert (next_id m < next_id m)%positive by (apply next_id_above; eauto).
  lia.
Qed.

(** With a running task of the caller, [create] answers 403 and writes
    nothing, whatever the request holds. *)
Lemma create_running default_name now db u data :
  has_running db u → create default_name now db u data = (db, Returned forbidden).
Proof.
  intros H. apply exists_running in H. unfold create. by rewrite H.
Qed.

Lemma continue_running now db u data :
  has_running db u → continue_task now db u data = (db, Returned forbidden).
Proof.
  intros H. apply exists_running in H. unfold continue_task. by rewrite H.
Qed.

(** Without one, [create] never answers 403. *)
Lemma create_not_running default_name now db u data r :
  ¬ has_running db u →
  (create default_name now db u data).2 = Returned r →
  status r ≠ HTTP_403_FORBIDDEN.
Proof.
  intros H. apply not_exists_running in H. unfold create. rewrite H.
  destruct (negb (truthy (get data "project_id"))); simpl.
  { intros [= <-]. done. }
  destruct (int (get data "project_id")) as [[]|id]; simpl;
    try (intros [= <-]; done); try done.
  destruct (get_project db id u) as [[p ?]|]; simpl; [|intros [= <-]; done].
  destruct (truthy (get data "duration")); simpl; intros [= <-]; done.
Qed.

Lemma continue_not_running now db u data r :
  ¬ has_running db u →
  (continue_task now db u data).2 = Returned r →
  status r ≠ HTTP_403_FORBIDDEN.
Proof.
  intros H. apply not_exists_running in H. unfold continue_task. rewrite H.
  destruct (negb (truthy (get data "id"))); simpl.
  { intros [= <-]. done. }
  destruct (int (get data "id")) as [e|id]; simpl; [done|].
  destruct (get_closed_task db id u) as [[pk t]|]; simpl; intros [= <-]; done.
Qed.


(** C10: in [create] and in [continue_task] the running-task check comes
    before any look at the request: when the caller has a running task, both
    answer 403 and leave the store as it was, for every request body, also
    one whose project id or task id is missing, empty or invalid. *)
Theorem forbidden_before_validation default_name now db u data :
  has_running db u →
  create default_name now db u data = (db, Returned forbidden)
  ∧ continue_task now db u data = (db, Returned forbidden)
  ∧ status forbidden = HTTP_403_FORBIDDEN.
Proof.
  intros H. split; [|split].
  - by apply create_running.
  - by apply continue_running.
  - reflexivity.
Qed.

Lemma forbidden_before_validation_witness :
  create "Task" 500 (db_with (task1 None None)) alice ∅
    = (db_with (task1 None None), Returned forbidden)
  ∧ continue_task 500 (db_with (task1 None None)) alice {[ "id" := VStr "x" ]}
    = (db_with (task1 None None), Returned forbidden).
Proof.
  split.
  - apply (forbidden_before_validation "Task" 500 _ alice ∅).
    exists 1%positive, (task1 None None). by vm_compute.
  - apply (forbidden_before_validation "Task" 500 _ alice {[ "id" := VStr "x" ]}).
    exists 1%positive, (task1 None None). by vm_compute.
Defined.

(** C2, as the claim states it, fails: user 1 has an open task that is
    paused, and [create] stores a second task and answers 201. *)
Lemma create_despite_paused_task :
  has_open (db_with (task1 (Some 200) None)) alice
  ∧ create "Task" 300 (db_with (task1 (Some 200) None)) alice
      {[ "project_id" := VInt 1 ]}
    = (mkDB (projects db0)
         {[ 1%positive := task1 (Some 200) None;
            2%positive := mkTask "Task" 1%positive 300 None 0 None None ]},
       Returned (mkResponse
         (TaskData (2%positive, mkTask "Task" 1%positive 300 None 0 None None))
         HTTP_201_CREATED)).
Proof.
  split.
  - exists 1%positive, (task1 (Some 200) None). by vm_compute.
  - by vm_compute.
Qed.

(** C2, amended: [create] answers 403 and stores nothing whenever the caller
    has a running task, one with ended_at and paused_at both null; when the
    caller has none, whatever open tasks are paused, the answer is never
    403. *)
Theorem create_forbidden_when_running default_name now db u data :
  (has_running db u →
   create default_name now db u data = (db, Returned forbidden)
   ∧ status forbidden = HTTP_403_FORBIDDEN)
  ∧ (¬ has_running db u →
     ∀ r, (create default_name now db u data).2 = Returned r →
          status r ≠ HTTP_403_FORBIDDEN).
Proof.
  split.
  - intros H. split; [by apply create_running | reflexivity].
  - intros H r. by apply create_not_running.
Qed.

Lemma create_forbidden_when_running_witness :
  create "Task" 500 (db_with (task1 None None)) alice
      {[ "project_id" := VInt 1 ]}
    = (db_with (task1 None None), Returned forbidden)
  ∧ status forbidden = HTTP_403_FORBIDDEN.
Proof.
  apply (proj1 (create_forbidden_when_running "Task" 500
                  (db_with (task1 None None)) alice {[ "project_id" := VInt 1 ]})).
  exists 1%positive, (task1 None None). by vm_compute.
Defined.

(** ** Durations and malformed ids *)

(** The task [create] stores when the request carries a duration: whatever
    the duration says, the end is 1 h 15 min 5 s after the start. *)
Lemma create_with_duration default_name now db u data id pk p :
  ¬ has_running db u →
  int (get data "project_id") = inr id →
  truthy (get data "project_id") = true →
  get_project db id u = Some (pk, p) →
  truthy (get data "duration") = true →
  ∃ new_pk nm,
    create default_name now db u data
    = (mkDB (projects db)
         (<[new_pk := mkTask nm pk now None 0 (Some (now + 4505000000)) None]>
            (tasks db)),
       Returned (mkResponse
         (TaskData (new_pk, mkTask nm pk now None 0 (Some (now + 4505000000)) None))
         HTTP_201_CREATED)).
Proof.
  intros Hrun Hint Hid Hproj Hdur. apply not_exists_running in Hrun.
  unfold create. rewrite Hrun, Hid, Hint, Hproj, Hdur. simpl.
  eexists _, _. reflexivity.
Qed.

(** C3: a request for a task of two hours, made at time 1000 by a user with
    a valid project and no running task.  The duration parses as 2:00:00,
    but the task stored ends 4505 seconds after it starts, not 7200. *)
Theorem create_ignores_duration :
  create "Task" 1000 db0 alice
      {[ "project_id" := VInt 1; "duration" := VStr "02:00:00" ]}
    = (mkDB (projects db0)
         {[ 1%positive :=
              mkTask "Task" 1%positive 1000 None 0 (Some (1000 + 4505 * 1000000)) None ]},
       Returned (mkResponse
         (TaskData (1%positive,
            mkTask "Task" 1%positive 1000 None 0 (Some (1000 + 4505 * 1000000)) None))
         HTTP_201_CREATED))
  ∧ strptime_HMS "02:00:00" = Some (2, 0, 0)
  ∧ timedelta 2 0 0 = 7200 * 1000000.
Proof. by vm_compute. Qed.

(** A task id that is not a number makes [continue_task] raise: its [except]
    clause names [Task.DoesNotExist] only, and the [ValueError] of [int]
    leaves the view. *)
Lemma continue_malformed_id now db u data s :
  ¬ has_running db u →
  get data "id" = VStr s → s ≠ "" → int_of_string s = None →
  continue_task now db u data = (db, Raised ValueError).
Proof.
  intros Hrun Hid Hs Hint. apply not_exists_running in Hrun.
  unfold continue_task. rewrite Hrun, Hid. simpl.
  destruct (String.eqb_spec s ""); [done|]. simpl. by rewrite Hint.
Qed.

(** C4: the task id "abc", sent by a user with no running task.  No response
    is built: [ValueError] is raised.  [create], next to it, catches the same
    error of a malformed project id and answers 400. *)
Theorem continue_malformed_id_raises :
  continue_task 1000 db0 alice {[ "id" := VStr "abc" ]} = (db0, Raised ValueError)
  ∧ create "Task" 1000 db0 alice {[ "project_id" := VStr "abc" ]}
    = (db0, Returned (mkResponse (Message "error" "Invalid Project")
                        HTTP_400_BAD_REQUEST)).
Proof. by vm_compute. Qed.

(** ** Closing, restarting and continuing a task *)

Lemma get_task_owned db u pk t :
  tasks db !! pk = Some t → project__user db t = Some u →
  get_task db (Z.pos pk) u = Some (pk, t).
Proof.
  intros Ht Hu. unfold get_task, by_id. rewrite Ht. simpl.
  by rewrite decide_True.
Qed.

Lemma get_closed_task_open db u pk t :
  tasks db !! pk = Some t → ended_at t = None →
  get_closed_task db (Z.pos pk) u = None.
Proof.
  intros Ht He. unfold get_closed_task, get_task, by_id. rewrite Ht. simpl.
  case_decide; [by rewrite He | done].
Qed.

Lemma int_truthy v pk : int v = inr (Z.pos pk) → truthy v = true.
Proof.
  destruct v as [|s|z]; simpl; [done| |].
  - destruct (String.eqb_spec s "") as [->|]; [|done].
    by vm_compute.
  - intros [= ->]. done.
Qed.

(** C5: [close_task] on a task of the caller that is already closed answers
    400 and leaves the store as it was, so that started_at, paused_at,
    seconds_paused and ended_at of the task (and of every other task) keep
    their values. *)
Theorem close_closed_task now db u pk t e :
  tasks db !! pk = Some t →
  project__user db t = Some u →
  ended_at t = Some e →
  close_task now db u (N.pos pk)
    = (db, Returned (mkResponse (Message "error" "Task already closed")
                       HTTP_400_BAD_REQUEST))
  ∧ tasks (close_task now db u (N.pos pk)).1 !! pk = Some t.
Proof.
  intros Ht Hu He.
  assert (close_task now db u (N.pos pk)
          = (db, Returned (mkResponse (Message "error" "Task already closed")
                             HTTP_400_BAD_REQUEST))) as ->.
  { unfold close_task. simpl Z.of_N. rewrite (get_task_owned _ _ _ _ Ht Hu).
    unfold is_closed. by rewrite He. }
  done.
Qed.

Lemma close_closed_task_witness :
  close_task 900 (db_with (task1 (Some 200) (Some 300))) alice 1%N
    = (db_with (task1 (Some 200) (Some 300)),
       Returned (mkResponse (Message "error" "Task already closed")
                   HTTP_400_BAD_REQUEST))
  ∧ tasks (close_task 900 (db_with (task1 (Some 200) (Some 300))) alice 1%N).1
      !! 1%positive = Some (task1 (Some 200) (Some 300)).
Proof.
  apply (close_closed_task 900 (db_with (task1 (Some 200) (Some 300))) alice
           1%positive (task1 (Some 200) (Some 300)) 300); reflexivity.
Defined.

(** C9: [restart_task] on a task of the caller that is not closed stores the
    task with started_at = now, ended_at and paused_at null and
    seconds_paused = 0, whatever these were, and answers 200 with it; on a
    closed task it answers 400 and leaves the store as it was. *)
Theorem restart_task_resets now db u pk t :
  tasks db !! pk = Some t →
  project__user db t = Some u →
  match ended_at t with
  | None =>
      ∃ t', restart_task now db u (N.pos pk)
            = (mkDB (projects db) (<[pk := t']> (tasks db)),
               Returned (mkResponse (TaskData (pk, t')) HTTP_200_OK))
          ∧ started_at t' = now ∧ ended_at t' = None
          ∧ paused_at t' = None ∧ seconds_paused t' = 0
          ∧ name t' = name t ∧ project t' = project t
          ∧ cloned_from t' = cloned_from t
  | Some _ =>
      restart_task now db u (N.pos pk)
      = (db, Returned (mkResponse (Message "error" "Task already closed")
                         HTTP_400_BAD_REQUEST))
  end.
Proof.
  intros Ht Hu. unfold restart_task. simpl Z.of_N.
  rewrite (get_task_owned _ _ _ _ Ht Hu). unfold is_closed.
  destruct (ended_at t); simpl; [done|].
  exists (restart now t). by repeat split.
Qed.

Lemma restart_task_resets_witness :
  ∃ t', restart_task 900 (db_with (mkTask "Task" 1%positive 100 (Some 200) 50 None None))
          alice 1%N
        = (mkDB (projects db0) {[ 1%positive := t' ]},
           Returned (mkResponse (TaskData (1%positive, t')) HTTP_200_OK))
      ∧ started_at t' = 900 ∧ ended_at t' = None
      ∧ paused_at t' = None ∧ seconds_paused t' = 0.
Proof.
  destruct (restart_task_resets 900
              (db_with (mkTask "Task" 1%positive 100 (Some 200) 50 None None))
              alice 1%positive (mkTask "Task" 1%positive 100 (Some 200) 50 None None)
              eq_refl eq_refl) as (t' & Hr & H1 & H2 & H3 & H4 & _).
  exists t'. rewrite Hr. repeat split; try assumption.
Defined.

(** C6, as the claim states it, fails: task 1 of user 1 is closed, task 2 of
    user 1 is running, and [continue_task] with the id of task 1 answers 403
    and stores no new task. *)
Lemma continue_closed_task_while_running :
  tasks (mkDB (projects db0)
           {[ 1%positive := task1 None (Some 300);
              2%positive := mkTask "Other" 1%positive 400 None 0 None None ]})
    !! 1%positive = Some (task1 None (Some 300))
  ∧ project__user db0 (task1 None (Some 300)) = Some alice
  ∧ ended_at (task1 None (Some 300)) = Some 300
  ∧ continue_task 900
      (mkDB (projects db0)
         {[ 1%positive := task1 None (Some 300);
            2%positive := mkTask "Other" 1%positive 400 None 0 None None ]})
      alice {[ "id" := VInt 1 ]}
    = (mkDB (projects db0)
         {[ 1%positive := task1 None (Some 300);
            2%positive := mkTask "Other" 1%positive 400 None 0 None None ]},
       Returned (mkResponse
         (Message "error"
            "there are tasks running, you must pause or close them in order to create new tasks")
         HTTP_403_FORBIDDEN)).
Proof. by vm_compute. Qed.

(** C6, amended: [continue_task] on a closed task of the caller, sent by a
    caller with no running task, stores one new task under a key not in use
    and answers 201 with it: its name and project are those of the source,
    cloned_from is the source, started_at = now, paused_at and ended_at are
    null (it is running), and nothing else in the store changes. *)
Theorem continue_closed_task now db u data pk t e :
  ¬ has_running db u →
  int (get data "id") = inr (Z.pos pk) →
  tasks db !! pk = Some t →
  project__user db t = Some u →
  ended_at t = Some e →
  ∃ new_pk new_task,
    continue_task now db u data
    = (mkDB (projects db) (<[new_pk := new_task]> (tasks db)),
       Returned (mkResponse (TaskData (new_pk, new_task)) HTTP_201_CREATED))
    ∧ tasks db !! new_pk = None
    ∧ name new_task = name t
    ∧ project new_task = project t
    ∧ cloned_from new_task = Some pk
    ∧ started_at new_task = now
    ∧ paused_at new_task = None
    ∧ ended_at new_task = None
    ∧ seconds_paused new_task = 0.
Proof.
  intros Hrun Hint Ht Hu He. apply not_exists_running in Hrun.
  unfold continue_task. rewrite Hrun, (int_truthy _ _ Hint), Hint. simpl.
  unfold get_closed_task. rewrite (get_task_owned _ _ _ _ Ht Hu), He.
  unfold objects_create.
  eexists _, _. split; [reflexivity|]. split; [apply next_id_fresh|].
  by repeat split.
Qed.

Lemma continue_closed_task_witness :
  ∃ new_pk new_task,
    continue_task 900 (db_with (task1 None (Some 300))) alice {[ "id" := VStr "1" ]}
    = (mkDB (projects db0)
         (<[new_pk := new_task]> {[ 1%positive := task1 None (Some 300) ]}),
       Returned (mkResponse (TaskData (new_pk, new_task)) HTTP_201_CREATED))
    ∧ name new_task = "Task"
    ∧ cloned_from new_task = Some 1%positive
    ∧ started_at new_task = 900.
Proof.
  destruct (continue_closed_task 900 (db_with (task1 None (Some 300))) alice
              {[ "id" := VStr "1" ]} 1%positive (task1 None (Some 300)) 300)
    as (new_pk & new_task & Hr & _ & Hn & _ & Hc & Hs & _).
  - intros (k & t & Hk & _ & He & _). revert Hk He. vm_compute.
    destruct k as [k|k|]; try destruct k; try discriminate.
    intros [= <-]. discriminate.
  - reflexivity.
  - reflexivity.
  - reflexivity.
  - reflexivity.
  - exists new_pk, new_task. split; [exact Hr|]. split; [exact Hn|].
    split; [exact Hc | exact Hs].
Defined.

(** C7, as the claim states it, fails: task 1 of user 1 is open and not
    paused, and [continue_task] with its id answers 403, not 404. *)
Lemma continue_running_task_forbidden :
  tasks (db_with (task1 None None)) !! 1%positive = Some (task1 None None)
  ∧ project__user (db_with (task1 None None)) (task1 None None) = Some alice
  ∧ ended_at (task1 None None) = None
  ∧ continue_task 900 (db_with (task1 None None)) alice {[ "id" := VInt 1 ]}
    = (db_with (task1 None None),
       Returned (mkResponse
         (Message "error"
            "there are tasks running, you must pause or close them in order to create new tasks")
         HTTP_403_FORBIDDEN)).
Proof. by vm_compute. Qed.

(** C7, amended: [continue_task] with the id of an open task of the caller
    stores nothing.  It answers 404 when the caller has no running task, and
    403 when the caller has one, which is always so when the task named is
    itself not paused. *)
Theorem continue_open_task now db u data pk t :
  tasks db !! pk = Some t →
  project__user db t = Some u →
  ended_at t = None →
  int (get data "id") = inr (Z.pos pk) →
  (¬ has_running db u →
   continue_task now db u data
   = (db, Returned (mkResponse (Message "error" "Task not found")
                      HTTP_404_NOT_FOUND)))
  ∧ (has_running db u →
     continue_task now db u data = (db, Returned forbidden)
     ∧ status forbidden = HTTP_403_FORBIDDEN)
  ∧ (paused_at t = None → has_running db u).
Proof.
  intros Ht Hu He Hint. split; [|split].
  - intros Hrun. apply not_exists_running in Hrun.
    unfold continue_task. rewrite Hrun, (int_truthy _ _ Hint), Hint. simpl.
    by rewrite (get_closed_task_open _ _ _ _ Ht He).
  - intros Hrun. split; [by apply continue_running | reflexivity].
  - intros Hp. by exists pk, t.
Qed.

Lemma continue_open_task_witness :
  continue_task 900 (db_with (task1 (Some 200) None)) alice {[ "id" := VInt 1 ]}
  = (db_with (task1 (Some 200) None),
     Returned (mkResponse (Message "error" "Task not found") HTTP_404_NOT_FOUND)).
Proof.
  apply (continue_open_task 900 (db_with (task1 (Some 200) None)) alice
           {[ "id" := VInt 1 ]} 1%positive (task1 (Some 200) None));
    [reflexivity | reflexivity | reflexivity | reflexivity |].
  intros (k & t & Hk & _ & _ & Hp). revert Hk Hp. vm_compute.
  destruct k as [k|k|]; try destruct k; try discriminate.
  intros [= <-]. discriminate.
Defined.

(** ** Listing the tasks of the caller *)

#[local] Instance started_desc_total : Total started_desc.
Proof. intros a b. unfold started_desc. lia. Qed.

#[local] Instance started_desc_trans : Transitive started_desc.
Proof. intros a b c. unfold started_desc. lia. Qed.

Lemma tasks_of_lookup db u pk t :
  tasks_of db u !! pk = Some t ↔
  tasks db !! pk = Some t ∧ project__user db t = Some u.
Proof. unfold tasks_of. by rewrite map_lookup_filter_Some. Qed.

Lemma order_by_elem_of (qs : gmap positive Task) pk t :
  (pk, t) ∈ order_by_started_at_desc qs ↔ qs !! pk = Some t.
Proof.
  unfold order_by_started_at_desc.
  rewrite (merge_sort_Permutation started_desc (map_to_list qs)).
  apply elem_of_map_to_list.
Qed.






(** The second page of size one of the listing of user 1: task 2, of user
    2, is on no page. *)
Example list_second_page :
  list_ (fun qs => Some (take 1 (drop 1 qs)))
    (mkDB (projects db0)
       {[ 1%positive := mkTask "a" 1%positive 100 None 0 (Some 150) None;
          2%positive := mkTask "b" 2%positive 200 None 0 None None;
          3%positive := mkTask "c" 1%positive 300 None 0 None None ]}) alice
  = mkResponse
      (TaskPage [ (1%positive, mkTask "a" 1%positive 100 None 0 (Some 150) None) ])
      HTTP_200_OK.
Proof. by vm_compute. Qed.

Example list_two_users :
  list_ no_pagination
    (mkDB (projects db0)
       {[ 1%positive := mkTask "a" 1%positive 100 None 0 (Some 150) None;
          2%positive := mkTask "b" 2%positive 200 None 0 None None;
          3%positive := mkTask "c" 1%positive 300 None 0 None None ]}) alice
  = mkResponse
      (TaskList [ (3%positive, mkTask "c" 1%positive 300 None 0 None None);
                  (1%positive, mkTask "a" 1%positive 100 None 0 (Some 150) None) ])
      HTTP_200_OK.
Proof. by vm_compute. Qed.

(** ** At most one running task *)

Lemma single_running_db0 : single_running db0.
Proof.
  intros u pk1 pk2 t1 t2 H1 _. apply running_tasks_lookup in H1 as [H1 _].
  change (tasks db0) with (∅ : gmap positive Task) in H1.
  by rewrite lookup_empty in H1.
Qed.

(** The last call of [resume_calls] is answered 200: the resumed task is
    returned, running, while task 2 runs. *)
Example resume_answers_200 :
  (dispatch "Task" no_pagination 400 alice (PUT_pause_resume 1%N)
     (serve "Task" no_pagination (take 3 resume_calls) db0)).2
  = Returned (mkResponse
      (TaskData (1%positive, mkTask "Task" 1%positive 100 None 200 None None))
      HTTP_200_OK).
Proof. by vm_compute. Qed.

(** C1: from a store with no task, four calls of user 1 (create, pause,
    create, resume) leave tasks 1 and 2 of user 1 both with ended_at and
    paused_at null, so that the user has two running tasks: resuming is not
    refused while another task of the caller runs.  Restarting the paused
    task does the same. *)
Theorem two_running_after_resume :
  let db := serve "Task" no_pagination resume_calls db0 in
  running_tasks db alice
  = {[ 1%positive := mkTask "Task" 1%positive 100 None 200 None None;
       2%positive := mkTask "Task" 1%positive 300 None 0 None None ]}
  ∧ ¬ single_running db
  ∧ ¬ single_running (serve "Task" no_pagination restart_calls db0).
Proof.
  split; [by vm_compute|]. split.
  - intros H.
    specialize (H alice 1%positive 2%positive
                  (mkTask "Task" 1%positive 100 None 200 None None)
                  (mkTask "Task" 1%positive 300 None 0 None None)).
    discriminate H; by vm_compute.
  - intros H.
    specialize (H alice 1%positive 2%positive
                  (mkTask "Task" 1%positive 400 None 0 None None)
                  (mkTask "Task" 1%positive 300 None 0 None None)).
    discriminate H; by vm_compute.
Qed.

(** What [create] and [continue_task] do keep: neither adds a second running
    task to a user. *)
Lemma running_tasks_insert db u k t' k0 t0 :
  running_tasks (mkDB (projects db) (<[k := t']> (tasks db))) u !! k0 = Some t0 →
  (k0 = k ∧ project__user db t' = Some u)
  ∨ running_tasks db u !! k0 = Some t0.
Proof.
  rewrite !running_tasks_lookup. unfold project__user. simpl.
  intros (Hk & Hu & He & Hp).
  destruct (decide (k = k0)) as [->|Hne].
  - rewrite lookup_insert_eq in Hk. injection Hk as ->. by left.
  - rewrite lookup_insert_ne in Hk by done. by right.
Qed.

Lemma single_running_insert db u k t' :
  single_running db → ¬ has_running db u → project__user db t' = Some u →
  single_running (mkDB (projects db) (<[k := t']> (tasks db))).
Proof.
  intros Hinv Hrun Hu u' k1 k2 t1 t2 H1 H2.
  apply running_tasks_insert in H1, H2.
  destruct H1 as [[-> Hu1]|H1], H2 as [[-> Hu2]|H2]; [done| | |by eapply Hinv].
  - exfalso. apply Hrun. exists k2, t2. apply running_tasks_lookup.
    by replace u with u' by congruence.
  - exfalso. apply Hrun. exists k1, t1. apply running_tasks_lookup.
    by replace u with u' by congruence.
Qed.

Lemma get_project_owner db id u pk p :
  get_project db id u = Some (pk, p) →
  projects db !! pk = Some p ∧ user p = u.
Proof.
  unfold get_project, by_id. destruct id as [|q|q]; try done.
  destruct (projects db !! q) as [p'|] eqn:E; simpl; [|done].
  case_decide; [|done]. by intros [= <- <-].
Qed.

Lemma create_single_running default_name now db u data :
  single_running db → single_running (create default_name now db u data).1.
Proof.
  intros Hinv. unfold create.
  destruct (exists_ (running_tasks db u)) eqn:Hrun; [done|].
  apply not_exists_running in Hrun.
  destruct (negb (truthy (get data "project_id"))); [done|].
  destruct (int (get data "project_id")) as [[]|id]; try done.
  destruct (get_project db id u) as [[pk p]|] eqn:Hp; [|done].
  apply get_project_owner in Hp as [Hp Hown].
  destruct (truthy (get data "duration")); simpl;
    apply (single_running_insert db u); try done;
    unfold project__user; simpl; by rewrite Hp, <- Hown.
Qed.

Lemma continue_single_running now db u data :
  single_running db → single_running (continue_task now db u data).1.
Proof.
  intros Hinv. unfold continue_task.
  destruct (exists_ (running_tasks db u)) eqn:Hrun; [done|].
  apply not_exists_running in Hrun.
  destruct (negb (truthy (get data "id"))); [done|].
  destruct (int (get data "id")) as [e|id]; [done|].
  destruct (get_closed_task db id u) as [[pk t]|] eqn:Ht; [|done].
  simpl. apply (single_running_insert db u); try done.
  unfold get_closed_task, get_task in Ht.
  destruct (by_id (tasks db) id) as [[pk' t']|]; [|done].
  case_decide as Hu; [|done].
  destruct (ended_at t'); [|done]. by injection Ht as -> ->.
Qed.

(** ** What a call can do to the store *)

Lemma by_id_Some {A} (m : gmap positive A) z pk x :
  by_id m z = Some (pk, x) ↔ z = Z.pos pk ∧ m !! pk = Some x.
Proof.
  unfold by_id. destruct z as [|q|q]; try (split; [done | by intros [? _]]).
  destruct (m !! q) as [y|] eqn:E; simpl; split.
  - by intros [= <- <-].
  - intros [[= <-] Hx]. rewrite E in Hx. by injection Hx as ->.
  - done.
  - intros [[= <-] Hx]. by rewrite E in Hx.
Qed.

Lemma get_task_Some db z u pk t :
  get_task db z u = Some (pk, t) ↔
  z = Z.pos pk ∧ tasks db !! pk = Some t ∧ project__user db t = Some u.
Proof.
  unfold get_task.
  destruct (by_id (tasks db) z) as [[pk' t']|] eqn:E.
  - apply by_id_Some in E as [-> E]. case_decide as Hu; split.
    + by intros [= <- <-].
    + intros ([= <-] & Ht & _). rewrite E in Ht. by injection Ht as ->.
    + done.
    + intros ([= <-] & Ht & Hu'). rewrite E in Ht. injection Ht as ->. done.
  - split; [done|]. intros (Hz & Ht & _).
    assert (by_id (tasks db) z = Some (pk, t)) as H by by apply by_id_Some.
    by rewrite E in H.
Qed.

Lemma get_task_None db z u :
  get_task db z u = None ↔
  ∀ pk t, z = Z.pos pk → tasks db !! pk = Some t → project__user db t ≠ Some u.
Proof.
  split.
  - intros H pk t Hz Ht Hu.
    assert (get_task db z u = Some (pk, t)) as H' by by apply get_task_Some.
    by rewrite H in H'.
  - intros H. destruct (get_task db z u) as [[pk t]|] eqn:E; [|done].
    apply get_task_Some in E as (Hz & Ht & Hu). by destruct (H pk t Hz Ht).
Qed.

Lemma get_closed_task_Some db z u pk t :
  get_closed_task db z u = Some (pk, t) ↔
  z = Z.pos pk ∧ tasks db !! pk = Some t ∧ project__user db t = Some u
  ∧ is_closed t = true.
Proof.
  unfold get_closed_task, is_closed.
  destruct (get_task db z u) as [[pk' t']|] eqn:E.
  - apply get_task_Some in E as (-> & Ht & Hu).
    destruct (ended_at t') eqn:He; split.
    + intros [= <- <-]. by rewrite He.
    + intros ([= <-] & Ht' & _). rewrite Ht in Ht'. by injection Ht' as ->.
    + done.
    + intros ([= <-] & Ht' & _ & Hc). rewrite Ht in Ht'. injection Ht' as <-.
      by rewrite He in Hc.
  - split; [done|]. intros (Hz & Ht & Hu & _).
    assert (get_task db z u = Some (pk, t)) as H by by apply get_task_Some.
    by rewrite E in H.
Qed.

Lemma is_closed_false t : is_closed t = false ↔ ended_at t = None.
Proof. unfold is_closed. by destruct (ended_at t). Qed.

Lemma create_store_step default_name now db u data :
  store_step now u db (create default_name now db u data).1.
Proof.
  unfold create.
  destruct (exists_ (running_tasks db u)) eqn:Hrun; [constructor|].
  apply not_exists_running in Hrun.
  destruct (negb (truthy (get data "project_id"))); [constructor|].
  destruct (int (get data "project_id")) as [[]|id]; try constructor.
  destruct (get_project db id u) as [[pk p]|] eqn:Hp; [|constructor].
  apply get_project_owner in Hp as [Hp Hown].
  destruct (truthy (get data "duration")); simpl;
    (apply step_new; simpl; try done; [|by left]);
    unfold project__user; simpl; by rewrite Hp, <- Hown.
Qed.

Lemma continue_store_step now db u data :
  store_step now u db (continue_task now db u data).1.
Proof.
  unfold continue_task.
  destruct (exists_ (running_tasks db u)) eqn:Hrun; [constructor|].
  apply not_exists_running in Hrun.
  destruct (negb (truthy (get data "id"))); [constructor|].
  destruct (int (get data "id")) as [e|id]; [constructor|].
  destruct (get_closed_task db id u) as [[pk t]|] eqn:Ht; [|constructor].
  apply get_closed_task_Some in Ht as (_ & Ht & Hu & Hc).
  unfold is_closed in Hc. destruct (ended_at t) as [e|] eqn:He; [|done].
  simpl. apply step_new; simpl; try done.
  right. exists pk, t, e. by repeat split.
Qed.

Lemma route_store_step (method : Z → Task → Task) (r404 r400 : Response)
    now db u (pk : N) :
  (method = toggle_paused ∨ method = close ∨ method = restart) →
  store_step now u db
    (match get_task db (Z.of_N pk) u with
     | None => (db, Returned r404)
     | Some (id, task) =>
         if negb (is_closed task) then
           (save id (method now task) db,
            Returned (mkResponse (TaskData (id, method now task)) HTTP_200_OK))
         else (db, Returned r400)
     end).1.
Proof.
  intros Hm. destruct (get_task db (Z.of_N pk) u) as [[id t]|] eqn:E;
    [|constructor].
  apply get_task_Some in E as (_ & Ht & Hu).
  destruct (is_closed t) eqn:Hc; simpl; [constructor|].
  apply is_closed_false in Hc. unfold save.
  apply (step_update now u db id t); try done.
  destruct Hm as [->| [->| ->]]; auto.
Qed.

Lemma dispatch_store_step default_name paginate_queryset now u req db :
  store_step now u db (dispatch default_name paginate_queryset now u req db).1.
Proof.
  destruct req as [|data|pk|pk|pk|data]; simpl.
  - constructor.
  - apply create_store_step.
  - apply (route_store_step toggle_paused). auto.
  - apply (route_store_step close). auto.
  - apply (route_store_step restart). auto.
  - apply continue_store_step.
Qed.

Lemma store_step_projects now u db db' :
  store_step now u db db' → projects db' = projects db.
Proof. by intros []. Qed.

(** A step leaves every row alone that is not an open task of the caller. *)
Lemma store_step_lookup now u db db' pk t :
  store_step now u db db' →
  tasks db !! pk = Some t →
  project__user db t ≠ Some u ∨ is_closed t = true →
  tasks db' !! pk = Some t.
Proof.
  intros [|t0 Hu0 _ _ _ _ _|pk0 t0 t0' Ht0 Hu0 He0 _] Ht Hor; simpl.
  - done.
  - rewrite lookup_insert_ne; [done|]. intros <-.
    by rewrite next_id_fresh in Ht.
  - rewrite lookup_insert_ne; [done|]. intros <-.
    rewrite Ht0 in Ht. injection Ht as ->.
    destruct Hor as [Hor|Hor]; [done|].
    unfold is_closed in Hor. by rewrite He0 in Hor.
Qed.

Lemma store_step_dom now u db db' :
  store_step now u db db' →
  dom (tasks db) ⊆ dom (tasks db')
  ∧ (size (tasks db') ≤ S (size (tasks db)))%nat.
Proof.
  intros [|t0 _ _ _ _ _ _|pk0 t0 t0' Ht0 _ _ _]; simpl.
  - split; [done | lia].
  - rewrite dom_insert_L. split; [set_solver|].
    rewrite map_size_insert_None by apply next_id_fresh. lia.
  - rewrite dom_insert_L. split; [set_solver|].
    rewrite map_size_insert_Some by eauto. lia.
Qed.

Lemma method_keeps now t t' :
  t' = toggle_paused now t ∨ t' = close now t ∨ t' = restart now t →
  name t' = name t ∧ project t' = project t ∧ cloned_from t' = cloned_from t.
Proof.
  intros [->| [->| ->]]; unfold toggle_paused, close, restart;
    try destruct (paused_at t); done.
Qed.

Lemma store_step_clones_closed now u db db' :
  store_step now u db db' → clones_closed db → clones_closed db'.
Proof.
  intros [|t0 Hu0 _ _ _ _ Hc0|pk0 t0 t0' Ht0 Hu0 He0 Hm] Hinv; [done| |];
    intros pk t c; simpl; intros Ht Hc.
  - destruct (decide (next_id (tasks db) = pk)) as [<-|Hne].
    + rewrite lookup_insert_eq in Ht. injection Ht as <-.
      destruct Hc0 as [Hc0|(c' & src & e & Hc' & Hsrc & _ & He & Hp & _)];
        [congruence|].
      assert (c' = c) as -> by congruence.
      assert (c < next_id (tasks db))%positive as Hlt
        by (apply next_id_above; eauto).
      split; [done|]. exists src. rewrite lookup_insert_ne by lia.
      unfold is_closed. by rewrite He.
    + rewrite lookup_insert_ne in Ht by done.
      destruct (Hinv pk t c Ht Hc) as (Hlt & src & Hsrc & Hcl & Hp).
      split; [done|]. exists src. rewrite lookup_insert_ne; [done|].
      intros <-. by rewrite next_id_fresh in Hsrc.
  - apply method_keeps in Hm as (_ & Hp0 & Hc0).
    destruct (decide (pk0 = pk)) as [<-|Hne].
    + rewrite lookup_insert_eq in Ht. injection Ht as <-.
      rewrite Hc0 in Hc.
      destruct (Hinv pk0 t0 c Ht0 Hc) as (Hlt & src & Hsrc & Hcl & Hp).
      split; [done|]. exists src. rewrite lookup_insert_ne by lia.
      by rewrite Hp0.
    + rewrite lookup_insert_ne in Ht by done.
      destruct (Hinv pk t c Ht Hc) as (Hlt & src & Hsrc & Hcl & Hp).
      split; [done|]. exists src. rewrite lookup_insert_ne; [done|].
      intros <-. rewrite Ht0 in Hsrc. injection Hsrc as ->.
      unfold is_closed in Hcl. by rewrite He0 in Hcl.
Qed.

(** ** What the task routes never do *)

(** X1: the views that [views.py] defines for the tasks ([list], [create],
    [pause_resume_task], [close_task], [restart_task], [continue_task])
    never change a task of another user: a task whose project the caller
    does not own is the same row, under the same key, after a call of any of
    them, whatever the request.  The routes that the view set inherits from
    the framework (retrieve, update) are not among these views. *)
Theorem other_users_tasks_untouched default_name paginate_queryset
    now u req db pk t :
  tasks db !! pk = Some t →
  project__user db t ≠ Some u →
  tasks (dispatch default_name paginate_queryset now u req db).1 !! pk = Some t.
Proof.
  intros Ht Hu.
  apply (store_step_lookup now u db); [apply dispatch_store_step|done|by left].
Qed.

Lemma other_users_tasks_untouched_witness :
  tasks (dispatch "Task" no_pagination 900 bob (PUT_close 1%N)
           (db_with (task1 None None))).1 !! 1%positive
  = Some (task1 None None).
Proof.
  apply (other_users_tasks_untouched "Task" no_pagination 900 bob (PUT_close 1%N)
           (db_with (task1 None None)) 1%positive (task1 None None)).
  - reflexivity.
  - vm_compute. discriminate.
Defined.

(** X2: a call of a task route never writes the project table, never
    removes a task, and adds at most one. *)
Theorem task_routes_keep_rows default_name paginate_queryset now u req db :
  projects (dispatch default_name paginate_queryset now u req db).1 = projects db
  ∧ dom (tasks db)
    ⊆ dom (tasks (dispatch default_name paginate_queryset now u req db).1)
  ∧ (size (tasks (dispatch default_name paginate_queryset now u req db).1)
     ≤ S (size (tasks db)))%nat.
Proof.
  pose proof (dispatch_store_step default_name paginate_queryset now u req db)
    as Hstep.
  split; [by eapply store_step_projects|]. by eapply store_step_dom.
Qed.

(** X3: the views that [views.py] defines for the tasks leave a closed task
    as it is: after any sequence of calls of [list], [create],
    [pause_resume_task], [close_task], [restart_task] and [continue_task],
    by whatever users, the row of a task that was closed is what it was.
    The routes that the view set inherits from the framework (retrieve,
    update) are not among these views. *)
Theorem closed_task_immutable default_name paginate_queryset calls db pk t :
  tasks db !! pk = Some t →
  is_closed t = true →
  tasks (serve default_name paginate_queryset calls db) !! pk = Some t.
Proof.
  intros Ht Hc. revert db Ht.
  induction calls as [|[[now u] req] calls IH]; intros db Ht; simpl; [done|].
  apply IH. apply (store_step_lookup now u db);
    [apply dispatch_store_step|done|by right].
Qed.

Lemma closed_task_immutable_witness :
  tasks (serve "Task" no_pagination
           [ (400, alice, PUT_restart 1%N);
             (500, alice, PUT_pause_resume 1%N);
             (600, alice, POST_continue {[ "id" := VInt 1 ]});
             (700, alice, PUT_close 1%N) ]
           (db_with (task1 None (Some 300)))) !! 1%positive
  = Some (task1 None (Some 300)).
Proof.
  apply (closed_task_immutable "Task" no_pagination _
           (db_with (task1 None (Some 300))) 1%positive (task1 None (Some 300)));
    reflexivity.
Defined.

(** X4: a task that a call adds to the store belongs to a project of the
    caller, starts at the time of the call, is not paused and has no pause
    on its account. *)
Theorem new_task_owned_by_caller default_name paginate_queryset
    now u req db pk t :
  tasks db !! pk = None →
  tasks (dispatch default_name paginate_queryset now u req db).1 !! pk = Some t →
  project__user db t = Some u
  ∧ started_at t = now ∧ paused_at t = None ∧ seconds_paused t = 0.
Proof.
  intros Hnone.
  destruct (dispatch_store_step default_name paginate_queryset now u req db)
    as [|t0 Hu0 _ Hs Hp Hsp _|pk0 t0 t0' Ht0 _ _ _]; simpl.
  - by rewrite Hnone.
  - destruct (decide (next_id (tasks db) = pk)) as [<-|Hne].
    + rewrite lookup_insert_eq. by intros [= <-].
    + rewrite lookup_insert_ne by done. by rewrite Hnone.
  - destruct (decide (pk0 = pk)) as [<-|Hne].
    + by rewrite Ht0 in Hnone.
    + rewrite lookup_insert_ne by done. by rewrite Hnone.
Qed.

Lemma new_task_owned_by_caller_witness :
  tasks (dispatch "Task" no_pagination 100 alice
           (POST_tasks {[ "project_id" := VInt 1 ]}) db0).1 !! 1%positive
  = Some (mkTask "Task" 1%positive 100 None 0 None None)
  ∧ project__user db0 (mkTask "Task" 1%positive 100 None 0 None None) = Some alice
  ∧ started_at (mkTask "Task" 1%positive 100 None 0 None None) = 100
  ∧ paused_at (mkTask "Task" 1%positive 100 None 0 None None) = None
  ∧ seconds_paused (mkTask "Task" 1%positive 100 None 0 None None) = 0.
Proof.
  split; [reflexivity|].
  apply (new_task_owned_by_caller "Task" no_pagination 100 alice
           (POST_tasks {[ "project_id" := VInt 1 ]}) db0 1%positive);
    reflexivity.
Defined.

(** X5: continuations point backwards to closed tasks.  If every task with
    cloned_from set points to a closed task of its own project with a smaller
    key, this is still so after any sequence of calls of the views that
    [views.py] defines for the tasks ([list], [create], [pause_resume_task],
    [close_task], [restart_task], [continue_task]); so these views build no
    chain of continuations that runs in a circle.  The routes that the view
    set inherits from the framework (retrieve, update) are not among these
    views. *)
Theorem clones_closed_kept default_name paginate_queryset calls db :
  clones_closed db →
  clones_closed (serve default_name paginate_queryset calls db).
Proof.
  revert db. induction calls as [|[[now u] req] calls IH]; intros db Hinv;
    simpl; [done|].
  apply IH. eapply store_step_clones_closed; [apply dispatch_store_step|done].
Qed.

Lemma clones_closed_kept_witness :
  clones_closed
    (serve "Task" no_pagination
       [ (100, alice, POST_tasks {[ "project_id" := VInt 1 ]});
         (200, alice, PUT_close 1%N);
         (300, alice, POST_continue {[ "id" := VInt 1 ]}) ] db0).
Proof.
  apply clones_closed_kept. intros pk t c Ht.
  change (tasks db0) with (∅ : gmap positive Task) in Ht.
  rewrite lookup_empty in Ht. discriminate Ht.
Defined.

(** ** Where the running-task rule holds *)

Lemma running_tasks_insert_inv db u k t' k0 t0 :
  running_tasks (mkDB (projects db) (<[k := t']> (tasks db))) u !! k0 = Some t0 →
  (k0 = k ∧ t0 = t' ∧ project__user db t' = Some u
   ∧ ended_at t' = None ∧ paused_at t' = None)
  ∨ (k0 ≠ k ∧ running_tasks db u !! k0 = Some t0).
Proof.
  rewrite !running_tasks_lookup. unfold project__user. simpl.
  intros (Hk & Hu & He & Hp).
  destruct (decide (k = k0)) as [->|Hne].
  - rewrite lookup_insert_eq in Hk. injection Hk as ->. by left.
  - rewrite lookup_insert_ne in Hk by done. right. by split; [congruence|].
Qed.

(** Rewriting a task into one that does not run keeps the rule. *)
Lemma single_running_shrink db k t' :
  single_running db →
  ended_at t' ≠ None ∨ paused_at t' ≠ None →
  single_running (mkDB (projects db) (<[k := t']> (tasks db))).
Proof.
  intros Hinv Hnot u k1 k2 t1 t2 H1 H2.
  apply running_tasks_insert_inv in H1, H2.
  destruct H1 as [(_ & _ & _ & He & Hp)|[_ H1]]; [by destruct Hnot|].
  destruct H2 as [(_ & _ & _ & He & Hp)|[_ H2]]; [by destruct Hnot|].
  by eapply Hinv.
Qed.

(** Rewriting a running task in place, within its project, keeps the rule. *)
Lemma single_running_replace db u k t t' :
  single_running db →
  running_tasks db u !! k = Some t →
  project t' = project t →
  single_running (mkDB (projects db) (<[k := t']> (tasks db))).
Proof.
  intros Hinv Ht Hp u' k1 k2 t1 t2 H1 H2.
  assert (project__user db t' = Some u) as Hown.
  { apply running_tasks_lookup in Ht as (_ & Hu & _).
    unfold project__user in *. by rewrite Hp. }
  apply running_tasks_insert_inv in H1, H2.
  destruct H1 as [(-> & _ & Hu1 & _)|[Hn1 H1]],
           H2 as [(-> & _ & Hu2 & _)|[Hn2 H2]]; [done| | |by eapply Hinv].
  - assert (u' = u) as -> by congruence. destruct Hn2. by eapply Hinv.
  - assert (u' = u) as -> by congruence. destruct Hn1. by eapply Hinv.
Qed.

(** X6: where the views of [views.py] can start a second running task.  A
    call of [list], [create], [pause_resume_task], [close_task],
    [restart_task] or [continue_task] keeps "at most one running task for
    each user" unless it resumes or restarts a paused task of a caller who
    has a running task: every other call of these views, and these two when
    the caller has nothing running, keep it.  The routes that the view set
    inherits from the framework (retrieve, update) are not among these
    views. *)
Theorem single_running_kept default_name paginate_queryset now u req db :
  single_running db →
  (wakes db u req → ¬ has_running db u) →
  single_running (dispatch default_name paginate_queryset now u req db).1.
Proof.
  intros Hinv Hwake. destruct req as [|data|pk|pk|pk|data]; simpl.
  - done.
  - by apply create_single_running.
  - unfold pause_resume_task.
    destruct (get_task db (Z.of_N pk) u) as [[id t]|] eqn:E; [|done].
    apply get_task_Some in E as (Hpk & Ht & Hu).
    destruct (is_closed t) eqn:Hc; [done|]. apply is_closed_false in Hc.
    simpl. unfold toggle_paused. destruct (paused_at t) as [w|] eqn:Hp.
    + apply (single_running_insert db u); [done| |done].
      apply Hwake. exists id, t, w. repeat split; try done. lia.
    + apply single_running_shrink; [done|]. by right.
  - unfold close_task.
    destruct (get_task db (Z.of_N pk) u) as [[id t]|] eqn:E; [|done].
    destruct (is_closed t) eqn:Hc; [done|].
    simpl. apply single_running_shrink; [done|]. by left.
  - unfold restart_task.
    destruct (get_task db (Z.of_N pk) u) as [[id t]|] eqn:E; [|done].
    apply get_task_Some in E as (Hpk & Ht & Hu).
    destruct (is_closed t) eqn:Hc; [done|]. apply is_closed_false in Hc.
    simpl. destruct (paused_at t) as [w|] eqn:Hp.
    + apply (single_running_insert db u); [done| |done].
      apply Hwake. exists id, t, w. repeat split; try done. lia.
    + apply (single_running_replace db u id t); [done| |done].
      by apply running_tasks_lookup.
  - by apply continue_single_running.
Qed.

Lemma single_running_kept_witness :
  single_running
    (dispatch "Task" no_pagination 400 alice (PUT_pause_resume 1%N)
       (db_with (task1 (Some 200) None))).1.
Proof.
  apply single_running_kept.
  - intros u k1 k2 t1 t2 H1 H2.
    apply running_tasks_lookup in H1 as (H1 & _ & _ & Hp1).
    revert H1 Hp1. vm_compute.
    destruct k1 as [k|k|]; try destruct k; try discriminate.
    intros [= <-]. discriminate.
  - intros _ (k & t & Hk & _ & _ & Hp). revert Hk Hp. vm_compute.
    destruct k as [k|k|]; try destruct k; try discriminate.
    intros [= <-]. discriminate.
Defined.

(** ** Answers of [create] and [continue_task] *)

Lemma int_truthy_ne v z : int v = inr z → z ≠ 0 → truthy v = true.
Proof.
  destruct v as [|s|x]; simpl; [done| |].
  - destruct (String.eqb_spec s "") as [->|]; [|done]. by vm_compute.
  - intros [= ->] Hz. by destruct (Z.eqb_spec z 0).
Qed.

Lemma get_project_None db z u :
  get_project db z u = None ↔
  ∀ pk p, z = Z.pos pk → projects db !! pk = Some p → user p ≠ u.
Proof.
  unfold get_project. split.
  - intros H pk p Hz Hp Hu.
    assert (by_id (projects db) z = Some (pk, p)) as E by by apply by_id_Some.
    rewrite E in H. by rewrite decide_True in H.
  - intros H. destruct (by_id (projects db) z) as [[pk p]|] eqn:E; [|done].
    apply by_id_Some in E as [Hz Hp]. case_decide; [|done].
    by destruct (H pk p Hz Hp).
Qed.

Lemma continue_task_201 now db u data pk t :
  ¬ has_running db u →
  int (get data "id") = inr (Z.pos pk) →
  tasks db !! pk = Some t →
  project__user db t = Some u →
  is_closed t = true →
  continue_task now db u data
  = (mkDB (projects db)
       (<[next_id (tasks db) :=
            mkTask (name t) (project t) now None 0 None (Some pk)]> (tasks db)),
     Returned (mkResponse
       (TaskData (next_id (tasks db),
                  mkTask (name t) (project t) now None 0 None (Some pk)))
       HTTP_201_CREATED)).
Proof.
  intros Hrun Hint Ht Hu Hc. apply not_exists_running in Hrun.
  unfold continue_task. rewrite Hrun, (int_truthy _ _ Hint), Hint. simpl.
  assert (get_closed_task db (Z.pos pk) u = Some (pk, t)) as ->
    by by apply get_closed_task_Some.
  done.
Qed.

(** X7: [create] in a project that is not the caller's.  When the caller has
    no running task and the project id is a string of ASCII characters that
    is no number, or a 64-bit number, written as an integer or as a string of
    ASCII characters, that is not the key of a project of the caller (no
    such project, or one of another user), the answer is 400 "Invalid
    Project" and nothing is stored. *)
Theorem create_invalid_project default_name now db u data :
  ¬ has_running db u →
  truthy (get data "project_id") = true →
  ascii_value (get data "project_id") →
  (int (get data "project_id") = inl ValueError
   ∨ ∃ id, int (get data "project_id") = inr id ∧ db_integer id
           ∧ ∀ pk p, id = Z.pos pk → projects db !! pk = Some p → user p ≠ u) →
  create default_name now db u data
  = (db, Returned (mkResponse (Message "error" "Invalid Project")
                     HTTP_400_BAD_REQUEST)).
Proof.
  intros Hrun Hid _ Hbad. apply not_exists_running in Hrun.
  unfold create. rewrite Hrun, Hid. simpl.
  destruct Hbad as [->|(id & -> & _ & Hnone)]; [done|].
  apply get_project_None in Hnone. by rewrite Hnone.
Qed.

Lemma create_invalid_project_witness :
  create "Task" 100 db0 alice {[ "project_id" := VStr "2" ]}
  = (db0, Returned (mkResponse (Message "error" "Invalid Project")
                      HTTP_400_BAD_REQUEST)).
Proof.
  apply create_invalid_project.
  - intros (k & t & Hk & _). revert Hk. vm_compute. discriminate.
  - reflexivity.
  - reflexivity.
  - right. exists 2. split; [reflexivity|]. split; [unfold db_integer; lia|].
    intros pk p [= <-]. vm_compute. intros [= <-]. discriminate.
Defined.

(** X8: [create] without a duration.  For a caller with no running task and
    a project id that reads as the key of one of the caller's projects, the
    answer is 201 with a new task, stored under a key not in use: it is in
    that project, starts now, runs (paused_at and ended_at null), and bears
    the name of the request, or the default name when the request has no
    name or an empty one. *)
Theorem create_stores_running_task default_name now db u data pk p :
  ¬ has_running db u →
  int (get data "project_id") = inr (Z.pos pk) →
  projects db !! pk = Some p → user p = u →
  truthy (get data "duration") = false →
  let t := mkTask (if truthy (get data "name") then str (get data "name")
                   else default_name) pk now None 0 None None in
  create default_name now db u data
  = (mkDB (projects db) (<[next_id (tasks db) := t]> (tasks db)),
     Returned (mkResponse (TaskData (next_id (tasks db), t)) HTTP_201_CREATED))
  ∧ tasks db !! next_id (tasks db) = None.
Proof.
  intros Hrun Hint Hp Hu Hdur t. apply not_exists_running in Hrun.
  split; [|apply next_id_fresh].
  unfold create. rewrite Hrun, (int_truthy _ _ Hint), Hint. simpl.
  unfold get_project, by_id. rewrite Hp. simpl. rewrite decide_True by done.
  by rewrite Hdur.
Qed.

Lemma create_stores_running_task_witness :
  create "Task" 100 db0 alice {[ "project_id" := VStr " 1 "; "name" := VStr "" ]}
  = (mkDB (projects db0)
       {[ 1%positive := mkTask "Task" 1%positive 100 None 0 None None ]},
     Returned (mkResponse
       (TaskData (1%positive, mkTask "Task" 1%positive 100 None 0 None None))
       HTTP_201_CREATED)).
Proof.
  destruct (create_stores_running_task "Task" 100 db0 alice
              {[ "project_id" := VStr " 1 "; "name" := VStr "" ]} 1%positive
              (mkProject "Alpha" 1%positive)) as [H _].
  - intros (k & t & Hk & _). revert Hk. vm_compute. discriminate.
  - reflexivity.
  - reflexivity.
  - reflexivity.
  - reflexivity.
  - exact H.
Defined.

(** X9: a request without its parameter.  For a caller with no running
    task, [create] with no project id, or one that is empty or 0, and
    [continue_task] with no task id, or one that is empty or 0, answer 400
    and store nothing. *)
Theorem missing_parameter_bad_request default_name now db u data :
  ¬ has_running db u →
  (truthy (get data "project_id") = false →
   create default_name now db u data
   = (db, Returned (mkResponse
            (Message "error"
               "You must provide a project in order to start a new task")
            HTTP_400_BAD_REQUEST)))
  ∧ (truthy (get data "id") = false →
     continue_task now db u data
     = (db, Returned (mkResponse
              (Message "error"
                 "You must provide a task id in order to continue task")
              HTTP_400_BAD_REQUEST))).
Proof.
  intros Hrun. apply not_exists_running in Hrun.
  split; intros Hid; [unfold create | unfold continue_task];
    by rewrite Hrun, Hid.
Qed.

Lemma missing_parameter_bad_request_witness :
  create "Task" 100 db0 alice {[ "name" := VStr "report"; "project_id" := VInt 0 ]}
  = (db0, Returned (mkResponse
            (Message "error"
               "You must provide a project in order to start a new task")
            HTTP_400_BAD_REQUEST))
  ∧ continue_task 100 db0 alice {[ "id" := VStr "" ]}
    = (db0, Returned (mkResponse
              (Message "error"
                 "You must provide a task id in order to continue task")
              HTTP_400_BAD_REQUEST)).
Proof.
  assert (¬ has_running db0 alice) as Hrun.
  { intros (k & t & Hk & _). revert Hk. vm_compute. discriminate. }
  split.
  - apply (missing_parameter_bad_request "Task" 100 db0 alice
             {[ "name" := VStr "report"; "project_id" := VInt 0 ]} Hrun).
    reflexivity.
  - apply (missing_parameter_bad_request "Task" 100 db0 alice
             {[ "id" := VStr "" ]} Hrun).
    reflexivity.
Defined.

(** X10: [continue_task] cannot reach a task of another user.  When the
    caller has no running task and the id is a 64-bit number, written as an
    integer or as a string of at most 640 ASCII characters, that is not the
    key of a task of the caller (no such task, a negative number, or a task
    in a project of another user, closed or not), the answer is 404 and
    nothing is stored. *)
Theorem continue_foreign_task now db u data id :
  ¬ has_running db u →
  truthy (get data "id") = true →
  ascii_value (get data "id") →
  short_value (get data "id") →
  int (get data "id") = inr id →
  db_integer id →
  (∀ pk t, id = Z.pos pk → tasks db !! pk = Some t →
           project__user db t ≠ Some u) →
  continue_task now db u data
  = (db, Returned (mkResponse (Message "error" "Task not found")
                     HTTP_404_NOT_FOUND)).
Proof.
  intros Hrun Hid _ _ Hint _ Hnone. apply not_exists_running in Hrun.
  unfold continue_task. rewrite Hrun, Hid, Hint. simpl.
  apply get_task_None in Hnone. unfold get_closed_task. by rewrite Hnone.
Qed.

Lemma continue_foreign_task_witness :
  continue_task 900 (db_with (task1 None (Some 300))) bob {[ "id" := VStr "1" ]}
  = (db_with (task1 None (Some 300)),
     Returned (mkResponse (Message "error" "Task not found") HTTP_404_NOT_FOUND)).
Proof.
  apply (continue_foreign_task 900 (db_with (task1 None (Some 300))) bob
           {[ "id" := VStr "1" ]} 1).
  - intros (k & t & Hk & _ & He & _). revert Hk He. vm_compute.
    destruct k as [k|k|]; try destruct k; try discriminate.
    intros [= <-]. discriminate.
  - reflexivity.
  - reflexivity.
  - vm_compute. lia.
  - reflexivity.
  - unfold db_integer. lia.
  - intros pk t [= <-]. vm_compute. intros [= <-]. discriminate.
Defined.

(** ** Answers of the routes that take a task key *)



(** X12: [pause_resume_task] on a closed task of the caller answers 400 and
    stores nothing: a closed task can be neither paused nor resumed. *)
Theorem pause_resume_closed_task now db u pk t :
  tasks db !! pk = Some t →
  project__user db t = Some u →
  is_closed t = true →
  pause_resume_task now db u (N.pos pk)
  = (db, Returned (mkResponse (Message "error" "the task is already closed")
                     HTTP_400_BAD_REQUEST)).
Proof.
  intros Ht Hu Hc. unfold pause_resume_task. simpl Z.of_N.
  by rewrite (get_task_owned _ _ _ _ Ht Hu), Hc.
Qed.

Lemma pause_resume_closed_task_witness :
  pause_resume_task 900 (db_with (task1 (Some 200) (Some 300))) alice 1%N
  = (db_with (task1 (Some 200) (Some 300)),
     Returned (mkResponse (Message "error" "the task is already closed")
                 HTTP_400_BAD_REQUEST)).
Proof.
  apply (pause_resume_closed_task 900 (db_with (task1 (Some 200) (Some 300)))
           alice 1%positive (task1 (Some 200) (Some 300))); reflexivity.
Defined.

(** ** How the calls compose *)

Lemma has_running_insert db u k t :
  project__user db t = Some u → ended_at t = None → paused_at t = None →
  has_running (mkDB (projects db) (<[k := t]> (tasks db))) u.
Proof.
  intros Hu He Hp. exists k, t. simpl. by rewrite lookup_insert_eq.
Qed.

Lemma create_201_running default_name now db u data db' pk t :
  create default_name now db u data
  = (db', Returned (mkResponse (TaskData (pk, t)) HTTP_201_CREATED)) →
  ended_at t = None → has_running db' u.
Proof.
  unfold create.
  destruct (exists_ (running_tasks db u)); [done|].
  destruct (negb (truthy (get data "project_id"))); [done|].
  destruct (int (get data "project_id")) as [[]|id]; try done.
  destruct (get_project db id u) as [[pr p]|] eqn:Hp; [|done].
  apply get_project_owner in Hp as [Hp Hown].
  destruct (truthy (get data "duration")); simpl; intros [= <- <- <-]; [done|].
  intros _. apply has_running_insert; try done.
  unfold project__user. simpl. by rewrite Hp, <- Hown.
Qed.

Lemma continue_201_running now db u data db' pk t :
  continue_task now db u data
  = (db', Returned (mkResponse (TaskData (pk, t)) HTTP_201_CREATED)) →
  has_running db' u.
Proof.
  unfold continue_task.
  destruct (exists_ (running_tasks db u)); [done|].
  destruct (negb (truthy (get data "id"))); [done|].
  destruct (int (get data "id")) as [e|id]; [done|].
  destruct (get_closed_task db id u) as [[src s]|] eqn:Hs; [|done].
  apply get_closed_task_Some in Hs as (_ & _ & Hu & _).
  simpl. intros [= <- <- <-]. by apply has_running_insert.
Qed.

(** X13: one task at a time.  When [create] or [continue_task] has answered
    201 with a task that has not ended, the caller has a running task in the
    new store, and every further [create] or [continue_task] of this caller
    on that store answers 403 and stores nothing, whatever it asks for. *)
Theorem started_task_blocks_next default_name now db u data db' pk t :
  create default_name now db u data
  = (db', Returned (mkResponse (TaskData (pk, t)) HTTP_201_CREATED))
  ∨ continue_task now db u data
    = (db', Returned (mkResponse (TaskData (pk, t)) HTTP_201_CREATED)) →
  ended_at t = None →
  ∀ now' data',
    create default_name now' db' u data' = (db', Returned forbidden)
    ∧ continue_task now' db' u data' = (db', Returned forbidden).
Proof.
  intros H He now' data'.
  assert (has_running db' u) as Hrun.
  { destruct H as [H|H];
      [by eapply create_201_running | by eapply continue_201_running]. }
  split; [by apply create_running | by apply continue_running].
Qed.

Lemma started_task_blocks_next_witness :
  create "Task" 200 (db_with (mkTask "Task" 1%positive 100 None 0 None None))
    alice {[ "project_id" := VInt 1 ]}
  = (db_with (mkTask "Task" 1%positive 100 None 0 None None), Returned forbidden)
  ∧ continue_task 200 (db_with (mkTask "Task" 1%positive 100 None 0 None None))
      alice {[ "id" := VInt 1 ]}
    = (db_with (mkTask "Task" 1%positive 100 None 0 None None), Returned forbidden).
Proof.
  split.
  - apply (started_task_blocks_next "Task" 100 db0 alice
             {[ "project_id" := VInt 1 ]} _ 1%positive
             (mkTask "Task" 1%positive 100 None 0 None None));
      [left; reflexivity | reflexivity].
  - apply (started_task_blocks_next "Task" 100 db0 alice
             {[ "project_id" := VInt 1 ]} _ 1%positive
             (mkTask "Task" 1%positive 100 None 0 None None));
      [left; reflexivity | reflexivity].
Defined.

(** X14: close, then continue.  [close_task] on an open task of the caller
    answers 200 and stores the task with ended_at = now, nothing else
    changed.  If no other task of the caller was running, [continue_task]
    with the key of that task then answers 201 with a running task that has
    its name and project and points to it. *)
Theorem close_then_continue now1 now2 db u data pk t :
  tasks db !! pk = Some t →
  project__user db t = Some u →
  ended_at t = None →
  (∀ k t', running_tasks db u !! k = Some t' → k = pk) →
  int (get data "id") = inr (Z.pos pk) →
  let closed := mkTask (name t) (project t) (started_at t) (paused_at t)
                  (seconds_paused t) (Some now1) (cloned_from t) in
  let db1 := mkDB (projects db) (<[pk := closed]> (tasks db)) in
  let new_task := mkTask (name t) (project t) now2 None 0 None (Some pk) in
  close_task now1 db u (N.pos pk)
  = (db1, Returned (mkResponse (TaskData (pk, closed)) HTTP_200_OK))
  ∧ continue_task now2 db1 u data
    = (mkDB (projects db) (<[next_id (tasks db1) := new_task]> (tasks db1)),
       Returned (mkResponse (TaskData (next_id (tasks db1), new_task))
                   HTTP_201_CREATED))
  ∧ next_id (tasks db1) ≠ pk.
Proof.
  intros Ht Hu He Honly Hint closed db1 new_task. split; [|split].
  - unfold close_task. simpl Z.of_N. rewrite (get_task_owned _ _ _ _ Ht Hu).
    unfold is_closed. by rewrite He.
  - apply (continue_task_201 now2 db1 u data pk closed); try done.
    + intros (k & t' & Hk). apply running_tasks_lookup in Hk.
      apply running_tasks_insert_inv in Hk
        as [(_ & -> & _ & Hc & _)|[Hne Hk]]; [done|].
      by apply Honly in Hk.
    + unfold db1. simpl. by rewrite lookup_insert_eq.
  - intros Heq.
    assert (tasks db1 !! pk = None) as Hnone
      by (rewrite <- Heq; apply next_id_fresh).
    unfold db1 in Hnone. simpl in Hnone. by rewrite lookup_insert_eq in Hnone.
Qed.

Lemma close_then_continue_witness :
  close_task 300 (db_with (task1 None None)) alice 1%N
  = (db_with (task1 None (Some 300)),
     Returned (mkResponse (TaskData (1%positive, task1 None (Some 300)))
                 HTTP_200_OK))
  ∧ continue_task 400 (db_with (task1 None (Some 300))) alice {[ "id" := VStr "1" ]}
    = (mkDB (projects db0)
         {[ 1%positive := task1 None (Some 300);
            2%positive := mkTask "Task" 1%positive 400 None 0 None (Some 1%positive) ]},
       Returned (mkResponse
         (TaskData (2%positive,
                    mkTask "Task" 1%positive 400 None 0 None (Some 1%positive)))
         HTTP_201_CREATED)).
Proof.
  destruct (close_then_continue 300 400 (db_with (task1 None None)) alice
              {[ "id" := VStr "1" ]} 1%positive (task1 None None))
    as (H1 & H2 & _).
  - reflexivity.
  - reflexivity.
  - reflexivity.
  - intros k t' Hk. apply running_tasks_lookup in Hk as (Hk & _).
    revert Hk. vm_compute.
    destruct k as [k|k|]; try destruct k; try discriminate. reflexivity.
  - reflexivity.
  - split; [exact H1 | exact H2].
Defined.

(** X15: every task has its project.  If every task of the store points to
    a project of the store, this is still so after any sequence of calls of
    the task routes. *)
Theorem tasks_have_project_kept default_name paginate_queryset calls db :
  tasks_have_project db →
  tasks_have_project (serve default_name paginate_queryset calls db).
Proof.
  revert db. induction calls as [|[[now u] req] calls IH]; intros db Hinv;
    simpl; [done|].
  apply IH.
  destruct (dispatch_store_step default_name paginate_queryset now u req db)
    as [|t0 Hu0 _ _ _ _ _|pk0 t0 t0' Ht0 _ _ Hm]; [done| |];
    intros pk t; simpl; intros Ht.
  - destruct (decide (next_id (tasks db) = pk)) as [<-|Hne].
    + rewrite lookup_insert_eq in Ht. injection Ht as <-.
      unfold project__user in Hu0.
      destruct (projects db !! project t0); [eauto | done].
    + rewrite lookup_insert_ne in Ht by done. by eapply Hinv.
  - destruct (decide (pk0 = pk)) as [<-|Hne].
    + rewrite lookup_insert_eq in Ht. injection Ht as <-.
      apply method_keeps in Hm as (_ & -> & _). by eapply Hinv.
    + rewrite lookup_insert_ne in Ht by done. by eapply Hinv.
Qed.

Lemma tasks_have_project_kept_witness :
  tasks_have_project (serve "Task" no_pagination resume_calls db0).
Proof.
  apply tasks_have_project_kept. intros pk t Ht.
  change (tasks db0) with (∅ : gmap positive Task) in Ht.
  rewrite lookup_empty in Ht. discriminate Ht.
Defined.

(** ** The project views *)

Lemma projects_of_lookup db u pk p :
  ProjectViews.projects_of db u !! pk = Some p ↔
  projects db !! pk = Some p ∧ user p = u.
Proof. unfold ProjectViews.projects_of. by rewrite map_lookup_filter_Some. Qed.



(** X17: a project the serializer accepts is stored for the caller.
    [create] answers 201 with a project under a key not in use, whose user is
    the caller; afterwards it is in the project list of the caller and of
    nobody else, the lists of projects that were there are as before, and no
    task has changed. *)
Theorem project_create_owned (Errors : Type) ProjectSerializer db u data validated :
  ProjectSerializer data = inr validated →
  let pk := next_id (projects db) in
  let db' := (ProjectViews.create Errors ProjectSerializer db u data).1 in
  (ProjectViews.create Errors ProjectSerializer db u data).2
  = ProjectViews.mkProjectResponse Errors
      (ProjectViews.ProjectData Errors (pk, mkProject validated u))
      HTTP_201_CREATED
  ∧ projects db !! pk = None
  ∧ tasks db' = tasks db
  ∧ ∀ v k p, ProjectViews.projects_of db' v !! k = Some p ↔
             ProjectViews.projects_of db v !! k = Some p
             ∨ (v = u ∧ k = pk ∧ p = mkProject validated u).
Proof.
  intros Hv pk db'. unfold db', ProjectViews.create. rewrite Hv. simpl.
  assert (projects db !! pk = None) as Hfresh by apply next_id_fresh.
  repeat split; try done.
  - rewrite !projects_of_lookup. simpl. fold pk.
    destruct (decide (pk = k)) as [<-|Hne].
    + rewrite lookup_insert_eq. intros [[= <-] <-]. by right.
    + rewrite lookup_insert_ne by done. by left.
  - rewrite !projects_of_lookup. simpl. fold pk.
    intros [[Hk Hu]|(-> & -> & ->)].
    + rewrite lookup_insert_ne; [done|]. intros <-. by rewrite Hfresh in Hk.
    + by rewrite lookup_insert_eq.
Qed.

Lemma project_create_owned_witness :
  (ProjectViews.create string name_required db0 alice {[ "name" := VStr "Gamma" ]}).2
  = ProjectViews.mkProjectResponse string
      (ProjectViews.ProjectData string (3%positive, mkProject "Gamma" alice))
      HTTP_201_CREATED.
Proof.
  apply (project_create_owned string name_required db0 alice
           {[ "name" := VStr "Gamma" ]} "Gamma"). reflexivity.
Defined.

(** X18: a new project takes tasks of its owner only.  After [create] of
    the project views has stored a project for user [u], [create] of the
    task views with the key of that project answers 201 with a task of that
    project when the caller is [u], and 400 "Invalid Project", storing
    nothing, when the caller is anyone else (callers with no running task). *)
Theorem project_create_then_task (Errors : Type) ProjectSerializer
    default_name now db u data validated v body :
  ProjectSerializer data = inr validated →
  let pk := next_id (projects db) in
  let db' := (ProjectViews.create Errors ProjectSerializer db u data).1 in
  ¬ has_running db' v →
  int (get body "project_id") = inr (Z.pos pk) →
  (v = u →
   ∃ db'' new_pk t,
     create default_name now db' v body
     = (db'', Returned (mkResponse (TaskData (new_pk, t)) HTTP_201_CREATED))
     ∧ project t = pk ∧ tasks db'' !! new_pk = Some t)
  ∧ (v ≠ u →
     create default_name now db' v body
     = (db', Returned (mkResponse (Message "error" "Invalid Project")
                         HTTP_400_BAD_REQUEST))).
Proof.
  intros Hv pk db' Hrun Hint.
  assert (projects db' !! pk = Some (mkProject validated u)) as Hpk.
  { unfold db', ProjectViews.create. rewrite Hv. simpl. by rewrite lookup_insert_eq. }
  split.
  - intros ->. apply not_exists_running in Hrun.
    unfold create. rewrite Hrun, (int_truthy _ _ Hint), Hint. simpl.
    unfold get_project, by_id. rewrite Hpk. simpl. rewrite decide_True by done.
    destruct (truthy (get body "duration")); simpl;
      eexists _, _, _; (split; [reflexivity|]); simpl;
      by rewrite lookup_insert_eq.
  - intros Hne. apply not_exists_running in Hrun.
    unfold create. rewrite Hrun, (int_truthy _ _ Hint), Hint. simpl.
    unfold get_project, by_id. rewrite Hpk. simpl.
    rewrite decide_False; [done | congruence].
Qed.

Lemma project_create_then_task_witness :
  create "Task" 100
    (ProjectViews.create string name_required db0 alice {[ "name" := VStr "Gamma" ]}).1
    bob {[ "project_id" := VInt 3 ]}
  = ((ProjectViews.create string name_required db0 alice {[ "name" := VStr "Gamma" ]}).1,
     Returned (mkResponse (Message "error" "Invalid Project") HTTP_400_BAD_REQUEST)).
Proof.
  apply (project_create_then_task string name_required "Task" 100 db0 alice
           {[ "name" := VStr "Gamma" ]} "Gamma" bob {[ "project_id" := VInt 3 ]}).
  - reflexivity.
  - intros (k & t & Hk & _). revert Hk. vm_compute. discriminate.
  - reflexivity.
  - discriminate.
Defined.

(** ** A new task in the listing *)

Lemma create_201_stored default_name now db u data db' pk t :
  create default_name now db u data
  = (db', Returned (mkResponse (TaskData (pk, t)) HTTP_201_CREATED)) →
  tasks db' !! pk = Some t ∧ project__user db' t = Some u.
Proof.
  unfold create.
  destruct (exists_ (running_tasks db u)); [done|].
  destruct (negb (truthy (get data "project_id"))); [done|].
  destruct (int (get data "project_id")) as [[]|id]; try done.
  destruct (get_project db id u) as [[pr p]|] eqn:Hp; [|done].
  apply get_project_owner in Hp as [Hp Hown].
  destruct (truthy (get data "duration")); simpl; intros [= <- <- <-]; simpl;
    (split; [by rewrite lookup_insert_eq|]);
    unfold project__user; simpl; by rewrite Hp, <- Hown.
Qed.

Lemma continue_201_stored now db u data db' pk t :
  continue_task now db u data
  = (db', Returned (mkResponse (TaskData (pk, t)) HTTP_201_CREATED)) →
  tasks db' !! pk = Some t ∧ project__user db' t = Some u.
Proof.
  unfold continue_task.
  destruct (exists_ (running_tasks db u)); [done|].
  destruct (negb (truthy (get data "id"))); [done|].
  destruct (int (get data "id")) as [e|id]; [done|].
  destruct (get_closed_task db id u) as [[src s]|] eqn:Hs; [|done].
  apply get_closed_task_Some in Hs as (_ & _ & Hu & _).
  simpl. intros [= <- <- <-]. simpl. by rewrite lookup_insert_eq.
Qed.

(** X19: the task that [create] or [continue_task] answers with is stored as
    answered: in the new store it is in the task listing of the caller, and
    in the listing of no other user. *)
Theorem created_task_listed default_name now db u data db' pk t :
  create default_name now db u data
  = (db', Returned (mkResponse (TaskData (pk, t)) HTTP_201_CREATED))
  ∨ continue_task now db u data
    = (db', Returned (mkResponse (TaskData (pk, t)) HTTP_201_CREATED)) →
  (pk, t) ∈ order_by_started_at_desc (tasks_of db' u)
  ∧ ∀ v, v ≠ u → (pk, t) ∉ order_by_started_at_desc (tasks_of db' v).
Proof.
  intros H.
  assert (tasks db' !! pk = Some t ∧ project__user db' t = Some u) as [Ht Hu].
  { destruct H as [H|H];
      [by eapply create_201_stored | by eapply continue_201_stored]. }
  split.
  - by rewrite order_by_elem_of, tasks_of_lookup.
  - intros v Hv. rewrite order_by_elem_of, tasks_of_lookup.
    intros [_ Hu']. congruence.
Qed.

Lemma created_task_listed_witness :
  (2%positive, mkTask "Task" 1%positive 400 None 0 None (Some 1%positive))
  ∈ order_by_started_at_desc
      (tasks_of
         (mkDB (projects db0)
            {[ 1%positive := task1 None (Some 300);
               2%positive := mkTask "Task" 1%positive 400 None 0 None (Some 1%positive) ]})
         alice).
Proof.
  apply (created_task_listed "Task" 400 (db_with (task1 None (Some 300))) alice
           {[ "id" := VInt 1 ]}).
  right. reflexivity.
Defined.
